(** * Receipt validation: [validate_receipt] of [ui/validation_ui.py]

    A shallow embedding of the validator and of the interpreter services it
    calls ([float], [str], [datetime.strptime], fixed-point formatting),
    followed by the properties of the validation report. *)

From Stdlib Require Import ZArith List Bool Lia Ascii String.
From Stdlib Require Import Floats.SpecFloat.
From stdpp Require Import gmap strings pretty.

Local Open Scope string_scope.
Local Open Scope Z_scope.

(** ** Interpreter values *)

(** Binary64 numbers, as the interpreter's [float]: the IEEE 754 format with
    a 53-bit significand. *)
Definition float : Type := spec_float.

Definition prec : Z := 53.
Definition emax : Z := 1024.

(** The values a field of a receipt dictionary can hold.  [VFloat] is meant
    for the floats of the format ([valid_binary prec emax f = true]).
    [VOther] stands for an object that [float] refuses with [TypeError] and
    [str] shows without fail (a date object, a list or a dict of texts); it
    carries the text [str] gives for it. *)
Inductive PyVal : Type :=
| VNone
| VBool (b : bool)
| VInt (z : Z)
| VFloat (f : float)
| VStr (s : string)
| VOther (text : string).

Inductive PyExn : Type :=
  ValueError | TypeError | OverflowError | ZeroDivisionError.

(** A computation that returns or raises. *)
Inductive res (A : Type) : Type :=
| Ret (a : A)
| Raise (e : PyExn).
Arguments Ret {A} a.
Arguments Raise {A} e.

Global Instance res_ret : MRet res := fun A a => Ret a.

Global Instance res_bind : MBind res := fun A B k m =>
  match m with
  | Ret a => k a
  | Raise e => Raise e
  end.

(** ** Float arithmetic and comparison *)

Definition fzero : float := S754_zero false.
Definition fsub (x y : float) : float := SFsub prec emax x y.
Definition fdiv (x y : float) : float := SFdiv prec emax x y.
Definition fmul (x y : float) : float := SFmul prec emax x y.
Definition fabs (x : float) : float := SFabs x.
Definition feq (x y : float) : bool := SFeqb x y.
Definition fle (x y : float) : bool := SFleb x y.
Definition fgt (x y : float) : bool := SFltb y x.

(** The operator [/] on floats. *)
Definition truediv (x y : float) : res float :=
  if feq y fzero then Raise ZeroDivisionError else Ret (fdiv x y).

(** The float nearest to an integer (ties to even); infinite when the
    integer is out of range. *)
Definition float_of_Z (z : Z) : float := binary_normalize prec emax z 0 false.

(** The float nearest to [d * 10^e], for a float literal with digits [d] and
    decimal exponent [e]. *)
Definition float_of_decimal (neg : bool) (d e : Z) : float :=
  match d with
  | Zpos p =>
      if 0 <=? e then binary_round prec emax neg (Z.to_pos (d * 10 ^ e)) 0
      else
        let '(q, e', l) := SFdiv_core_binary prec emax d 0 (10 ^ (- e)) 0 in
        binary_round_aux prec emax neg q e' l
  | _ => S754_zero neg
  end.

(** ** Characters and text *)

(** A text is held as the bytes of its UTF-8 form. *)

Definition code (c : ascii) : Z := Z.of_N (N_of_ascii c).

Definition is_digit (c : ascii) : bool := (48 <=? code c) && (code c <=? 57).

Definition digit (c : ascii) : Z := code c - 48.

Definition in_range (lo hi : Z) (c : ascii) : bool :=
  is_digit c && (lo <=? digit c) && (digit c <=? hi).

(** The white space [float] strips: tab, line feed, vertical tab, form feed,
    carriage return and space. *)
Definition is_space (c : ascii) : bool :=
  ((9 <=? code c) && (code c <=? 13)) || (code c =? 32).

Definition to_lower (c : ascii) : ascii :=
  if (65 <=? code c) && (code c <=? 90)
  then ascii_of_N (N_of_ascii c + 32) else c.

Fixpoint lower (s : string) : string :=
  match s with
  | EmptyString => EmptyString
  | String c r => String (to_lower c) (lower r)
  end.

Fixpoint lstrip (s : string) : string :=
  match s with
  | String c r => if is_space c then lstrip r else s
  | EmptyString => s
  end.

Fixpoint rstrip (s : string) : string :=
  match s with
  | EmptyString => EmptyString
  | String c r =>
      match rstrip r with
      | EmptyString => if is_space c then EmptyString else String c EmptyString
      | r' => String c r'
      end
  end.

(** Decimal text of an integer. *)
Definition str_of_Z (z : Z) : string := pretty z.

(** *** Characters outside ASCII *)

(** The payload of a continuation byte of UTF-8. *)
Definition continuation (c : ascii) : option Z :=
  if (128 <=? code c) && (code c <=? 191) then Some (code c - 128) else None.

(** The code point at the head of a text and the text after it, for a
    text that starts with a well-formed character. *)
Definition next_char (s : string) : option (Z * string) :=
  match s with
  | EmptyString => None
  | String b0 r0 =>
      if code b0 <? 128 then Some (code b0, r0)
      else if code b0 <? 192 then None
      else if code b0 <? 224 then
        match r0 with
        | String b1 r1 =>
            x1 ← continuation b1;
            let cp := (code b0 - 192) * 64 + x1 in
            if 128 <=? cp then Some (cp, r1) else None
        | _ => None
        end
      else if code b0 <? 240 then
        match r0 with
        | String b1 (String b2 r2) =>
            x1 ← continuation b1;
            x2 ← continuation b2;
            let cp := ((code b0 - 224) * 64 + x1) * 64 + x2 in
            if (2048 <=? cp) && negb ((55296 <=? cp) && (cp <=? 57343))
            then Some (cp, r2) else None
        | _ => None
        end
      else if code b0 <? 248 then
        match r0 with
        | String b1 (String b2 (String b3 r3)) =>
            x1 ← continuation b1;
            x2 ← continuation b2;
            x3 ← continuation b3;
            let cp := (((code b0 - 240) * 64 + x1) * 64 + x2) * 64 + x3 in
            if (65536 <=? cp) && (cp <=? 1114111) then Some (cp, r3) else None
        | _ => None
        end
      else None
  end.

(** The zero of each run of ten decimal digits of Unicode 14.0, the table
    of CPython 3.11: ASCII, Arabic-Indic, ..., full width, ... *)
Definition decimal_zeros : list Z :=
  [48; 1632; 1776; 1984; 2406; 2534; 2662; 2790; 2918; 3046; 3174; 3302;
   3430; 3558; 3664; 3792; 3872; 4160; 4240; 6112; 6160; 6470; 6608; 6784;
   6800; 6992; 7088; 7232; 7248; 42528; 43216; 43264; 43472; 43504; 43600;
   44016; 65296; 66720; 68912; 69734; 69872; 69942; 70096; 70384; 70736;
   70864; 71248; 71360; 71472; 71904; 72016; 72784; 73040; 73120; 92768;
   92864; 93008; 120782; 120792; 120802; 120812; 120822; 123200; 123632;
   125264; 130032].

(** The value of a decimal digit of any script, as [\d] and [int] see
    it. *)
Definition decimal_value (cp : Z) : option Z :=
  match List.find (fun z => (z <=? cp) && (cp <=? z + 9)) decimal_zeros with
  | Some z => Some (cp - z)
  | None => None
  end.

(** One decimal digit at the head of a text: its value and the rest. *)
Definition read_digit (s : string) : option (Z * string) :=
  '(cp, r) ← next_char s;
  v ← decimal_value cp;
  Some (v, r).

(** The white space outside ASCII. *)
Definition unicode_space (cp : Z) : bool :=
  (cp =? 133) || (cp =? 160) || (cp =? 5760)
  || ((8192 <=? cp) && (cp <=? 8202))
  || (cp =? 8232) || (cp =? 8233) || (cp =? 8239) || (cp =? 8287)
  || (cp =? 12288).

Fixpoint all_ascii (s : string) : bool :=
  match s with
  | EmptyString => true
  | String c r => (code c <? 128) && all_ascii r
  end.

Definition ascii_of_code (cp : Z) : ascii := ascii_of_N (Z.to_N cp).

(** What [float] makes of a text that is not all ASCII before reading it:
    white space becomes a space, a decimal digit its ASCII digit, and the
    text is cut at the first other character outside ASCII, which becomes
    a question mark. *)
Fixpoint to_ascii (fuel : nat) (s : string) : string :=
  match fuel, s with
  | S fuel', String _ _ =>
      match next_char s with
      | Some (cp, r) =>
          if cp <? 127 then String (ascii_of_code cp) (to_ascii fuel' r)
          else if unicode_space cp then String " " (to_ascii fuel' r)
          else
            match decimal_value cp with
            | Some v => String (ascii_of_code (48 + v)) (to_ascii fuel' r)
            | None => "?"
            end
      | None => "?"
      end
  | _, _ => ""
  end.

Fixpoint zeros (n : nat) : string :=
  match n with
  | O => ""
  | S k => String "0" (zeros k)
  end.

Fixpoint skip (n : nat) (s : string) : string :=
  match n, s with
  | S k, String _ r => skip k r
  | _, _ => s
  end.

Fixpoint take (n : nat) (s : string) : string :=
  match n, s with
  | S k, String c r => String c (take k r)
  | _, _ => ""
  end.

(** ** [float] of a text *)

(** The leading decimal digits of a text: their value appended to [acc],
    their number added to [n], and the text after them. *)
Fixpoint digits (s : string) (acc n : Z) : Z * Z * string :=
  match s with
  | String c r =>
      if is_digit c then digits r (10 * acc + digit c) (n + 1) else (acc, n, s)
  | EmptyString => (acc, n, s)
  end.

Definition sign (s : string) : bool * string :=
  match s with
  | String "-" r => (true, r)
  | String "+" r => (false, r)
  | _ => (false, s)
  end.

(** The optional exponent.  An "e" that no well-formed exponent follows is
    left unread. *)
Definition exponent (s : string) : Z * string :=
  match s with
  | String c r =>
      if (c =? "e")%char || (c =? "E")%char then
        let '(neg, r1) := sign r in
        let '(e, n, r2) := digits r1 0 0 in
        if 0 <? n then (if neg then - e else e, r2) else (0, s)
      else (0, s)
  | EmptyString => (0, s)
  end.

(** A decimal literal: digits with an optional point among them, then the
    optional exponent.  At least one digit is required. *)
Definition number (neg : bool) (s : string) : option (float * string) :=
  let '(d1, n1, r1) := digits s 0 0 in
  let '(d2, n2, r2) :=
    match r1 with
    | String "." r => digits r d1 0
    | _ => (d1, 0, r1)
    end in
  if 0 <? n1 + n2 then
    let '(e, r3) := exponent r2 in
    Some (float_of_decimal neg d2 (e - n2), r3)
  else None.

(** "inf", "infinity" and "nan", in any letter case. *)
Definition inf_or_nan (neg : bool) (s : string) : option (float * string) :=
  let l := lower s in
  if String.prefix "infinity" l then Some (S754_infinity neg, skip 8 s)
  else if String.prefix "inf" l then Some (S754_infinity neg, skip 3 s)
  else if String.prefix "nan" l then Some (S754_nan, skip 3 s)
  else None.

(** An underscore is allowed between two digits only. *)
Fixpoint underscores_ok (prev : ascii) (s : string) : bool :=
  match s with
  | EmptyString => negb (prev =? "_")%char
  | String c r =>
      (if (c =? "_")%char then is_digit prev
       else negb (prev =? "_")%char || is_digit c)
      && underscores_ok c r
  end.

Fixpoint remove_underscores (s : string) : string :=
  match s with
  | EmptyString => EmptyString
  | String c r =>
      if (c =? "_")%char then remove_underscores r
      else String c (remove_underscores r)
  end.

(** [float(s)] for a text [s].  A literal too large for the format yields
    an infinity, without an exception. *)
Definition float_of_str (s : string) : res float :=
  let s := if all_ascii s then s else to_ascii (String.length s) s in
  if underscores_ok "000" s then
    let '(neg, r) := sign (rstrip (lstrip (remove_underscores s))) in
    match
      match number neg r with
      | Some x => Some x
      | None => inf_or_nan neg r
      end
    with
    | Some (f, EmptyString) => Ret f
    | _ => Raise ValueError
    end
  else Raise ValueError.

(** The builtin [float(v)]. *)
Definition py_float (v : PyVal) : res float :=
  match v with
  | VNone => Raise TypeError
  | VBool b => Ret (float_of_Z (if b then 1 else 0))
  | VInt z =>
      match float_of_Z z with
      | S754_infinity _ => Raise OverflowError
      | f => Ret f
      end
  | VFloat f => Ret f
  | VStr s => float_of_str s
  | VOther _ => Raise TypeError
  end.

(** ** Text of a float *)

(** The integer nearest to [n / d], ties to even, for [0 <= n] and [0 < d]. *)
Definition round_half_even (n d : Z) : Z :=
  let q := n / d in
  match 2 * (n mod d) ?= d with
  | Lt => q
  | Eq => if Z.even q then q else q + 1
  | Gt => q + 1
  end.

Definition zfill (w : Z) (s : string) : string :=
  zeros (Z.to_nat (w - Z.of_nat (String.length s))) ++ s.

Definition minus (neg : bool) : string := if neg then "-" else "".

(** [n / 10^nd] written with [nd] digits after the point. *)
Definition fixed_digits (nd n : Z) : string :=
  str_of_Z (n / 10 ^ nd)
  ++ (if nd =? 0 then "" else "." ++ zfill nd (str_of_Z (n mod 10 ^ nd))).

(** [format(x, ".{nd}f")]: the decimal with [nd] fractional digits nearest
    to the exact value of [x]. *)
Definition format_fixed (nd : Z) (x : float) : string :=
  match x with
  | S754_nan => "nan"
  | S754_infinity s => minus s ++ "inf"
  | S754_zero s => minus s ++ fixed_digits nd 0
  | S754_finite s m e =>
      minus s ++
      fixed_digits nd
        (if 0 <=? e then Zpos m * 2 ^ e * 10 ^ nd
         else round_half_even (Zpos m * 10 ^ nd) (2 ^ (- e)))
  end.

(** The position [k] of the decimal point of the positive rational [n / d]:
    [10^(k-1) <= n / d < 10^k].  The estimate from the binary logarithms is
    within one of it. *)
Definition decimal_point (n d : Z) : Z :=
  let k0 := (Z.log2 n - Z.log2 d) * 30103 / 100000 - 1 in
  let ge k := if 0 <=? k then d * 10 ^ k <=? n else d <=? n * 10 ^ (- k) in
  if ge (k0 + 2) then k0 + 3
  else if ge (k0 + 1) then k0 + 2
  else if ge k0 then k0 + 1
  else k0.

(** The decimals of [nd] significant digits around the positive float
    [m * 2^e] that read back as it, the nearer first. *)
Definition repr_candidates (m : positive) (e : Z) (k nd : Z) : list Z :=
  let n := (if 0 <=? e then Zpos m * 2 ^ e else Zpos m) * 10 ^ Z.max (nd - k) 0 in
  let d := (if 0 <=? e then 1 else 2 ^ (- e)) * 10 ^ Z.max (k - nd) 0 in
  let lo := n / d in
  let hi := if n mod d =? 0 then lo else lo + 1 in
  let back c :=
    match float_of_decimal false c (k - nd) with
    | S754_finite _ m' e' => (m' =? m)%positive && (e' =? e)
    | _ => false
    end in
  filter (fun c => back c)
    (if round_half_even n d =? lo then [lo; hi] else [hi; lo]).

(** The shortest digits that read back as the float: the digits and the
    position of the point. *)
Fixpoint shortest (fuel : nat) (m : positive) (e k nd : Z) : Z * Z :=
  match fuel with
  | O => (Zpos m, 0)
  | S fuel' =>
      match repr_candidates m e k nd with
      | c :: _ => (c, nd)
      | [] => shortest fuel' m e k (nd + 1)
      end
  end.

Fixpoint strip_zeros (fuel : nat) (c : Z) : Z :=
  match fuel with
  | O => c
  | S fuel' => if (c mod 10 =? 0) && negb (c =? 0) then strip_zeros fuel' (c / 10) else c
  end.

(** [repr] of a float: the shortest digits, in positional notation when
    the point lies within 16 places of them and in exponent notation
    otherwise. *)
Definition float_repr (x : float) : string :=
  match x with
  | S754_nan => "nan"
  | S754_infinity s => minus s ++ "inf"
  | S754_zero s => minus s ++ "0.0"
  | S754_finite s m e =>
      let k0 :=
        if 0 <=? e then decimal_point (Zpos m * 2 ^ e) 1
        else decimal_point (Zpos m) (2 ^ (- e)) in
      let '(c, nd) := shortest 17 m e k0 1 in
      let ds := str_of_Z (strip_zeros 17 c) in
      (* [c] may be [10^nd], one digit longer than asked *)
      let k := k0 + (Z.of_nat (String.length (str_of_Z c)) - nd) in
      let n := Z.of_nat (String.length ds) in
      minus s ++
      (if (k <=? -4) || (16 <? k) then
         take 1 ds ++ (if 1 <? n then "." ++ skip 1 ds else "")
         ++ "e" ++ (if k - 1 <? 0 then "-" else "+")
         ++ zfill 2 (str_of_Z (Z.abs (k - 1)))
       else if k <=? 0 then "0." ++ zeros (Z.to_nat (- k)) ++ ds
       else if k <? n then take (Z.to_nat k) ds ++ "." ++ skip (Z.to_nat k) ds
       else ds ++ zeros (Z.to_nat (k - n)) ++ ".0")
  end.

(** The text of a value: what [str] returns for it when it returns (see
    [builtin_str] for when it does). *)
Definition py_str (v : PyVal) : string :=
  match v with
  | VNone => "None"
  | VBool b => if b then "True" else "False"
  | VInt z => str_of_Z z
  | VFloat f => float_repr f
  | VStr s => s
  | VOther text => text
  end.

(** The longest text the interpreter gives for an integer, in digits. *)
Definition int_max_str_digits : Z := 4300.

(** The builtin [str(v)], which is also what an f-string field shows: the
    text of the value, refused with [ValueError] for an integer of more
    digits than the limit. *)
Definition builtin_str (v : PyVal) : res string :=
  match v with
  | VInt z =>
      if 10 ^ int_max_str_digits <=? Z.abs z then Raise ValueError
      else Ret (py_str v)
  | _ => Ret (py_str v)
  end.

(** ** [datetime.strptime] with the format "%Y-%m-%d" *)

(** The format compiles to the pattern
    [(\d\d\d\d)-(1[0-2]|0[1-9]|[1-9])-(3[0-1]|[1-2]\d|0[1-9]|[1-9]| [1-9])];
    each directive lists, in the order the pattern tries them, the values it
    can read at the head of a text and what is left after each.  [\d] is a
    decimal digit of any script, the classes in brackets are ASCII. *)

Definition lit (c : ascii) (s : string) : option string :=
  match s with
  | String c' r => if (c' =? c)%char then Some r else None
  | EmptyString => None
  end.

Definition re_Y (s : string) : option (Z * string) :=
  '(a, r1) ← read_digit s;
  '(b, r2) ← read_digit r1;
  '(c, r3) ← read_digit r2;
  '(d, r4) ← read_digit r3;
  Some (1000 * a + 100 * b + 10 * c + d, r4).

Definition re_m (s : string) : list (Z * string) :=
  match s with
  | String a r =>
      match r with
      | String b r' =>
          (if (a =? "1")%char && in_range 0 2 b then [(10 + digit b, r')] else [])
          ++ (if (a =? "0")%char && in_range 1 9 b then [(digit b, r')] else [])
      | EmptyString => []
      end
      ++ (if in_range 1 9 a then [(digit a, r)] else [])
  | EmptyString => []
  end.

Definition re_d (s : string) : list (Z * string) :=
  match s with
  | String a r =>
      match r with
      | String b r' =>
          if (a =? "3")%char && in_range 0 1 b then [(30 + digit b, r')] else []
      | EmptyString => []
      end
      ++ (if in_range 1 2 a then
            match read_digit r with
            | Some (v, r') => [(10 * digit a + v, r')]
            | None => []
            end
          else [])
      ++ match r with
         | String b r' =>
             if (a =? "0")%char && in_range 1 9 b then [(digit b, r')] else []
         | EmptyString => []
         end
      ++ (if in_range 1 9 a then [(digit a, r)] else [])
      ++ match r with
         | String b r' =>
             if (a =? " ")%char && in_range 1 9 b then [(digit b, r')] else []
         | EmptyString => []
         end
  | EmptyString => []
  end.

(** The first match of the pattern at the start of the text: year, month,
    day and the unread rest. *)
Definition match_ymd (s : string) : option (Z * Z * Z * string) :=
  '(y, r1) ← re_Y s;
  r2 ← lit "-" r1;
  head (flat_map
          (fun '(m, r3) =>
             match lit "-" r3 with
             | Some r4 => map (fun '(d, r5) => (y, m, d, r5)) (re_d r4)
             | None => []
             end)
          (re_m r2)).

Definition is_leap (y : Z) : bool :=
  (y mod 4 =? 0) && (negb (y mod 100 =? 0) || (y mod 400 =? 0)).

Definition days_in_month (y m : Z) : Z :=
  if m =? 2 then (if is_leap y then 29 else 28)
  else if (m =? 4) || (m =? 6) || (m =? 9) || (m =? 11) then 30
  else 31.

(** [datetime.strptime(s, "%Y-%m-%d")]: the whole text must match, and the
    fields must form a date of the calendar from year 1 on. *)
Definition strptime_ymd (s : string) : res (Z * Z * Z) :=
  match match_ymd s with
  | Some (y, m, d, EmptyString) =>
      if (1 <=? y) && (d <=? days_in_month y m) then Ret (y, m, d)
      else Raise ValueError
  | _ => Raise ValueError
  end.

(** ** The validation report *)

(** What a check holds beside its verdict, under the key named by the
    constructor. *)
Inductive CheckInfo : Type :=
| details (text : string)
| missing (fields : list string)
| value (text : string).

Record Check : Type := { pass : bool; info : CheckInfo }.

(** [checks] keeps the checks in the order they were entered. *)
Record Report : Type := { passed : bool; checks : list (string * Check) }.

(** [d[k] = v] on a dictionary kept in insertion order: a known key keeps
    its place, a new key goes last. *)
Fixpoint setitem {A : Type} (d : list (string * A)) (k : string) (v : A)
  : list (string * A) :=
  match d with
  | [] => [(k, v)]
  | (k', v') :: r =>
      if String.eqb k' k then (k, v) :: r else (k', v') :: setitem r k v
  end.

Fixpoint getitem {A : Type} (d : list (string * A)) (k : string) : option A :=
  match d with
  | [] => None
  | (k', v) :: r => if String.eqb k' k then Some v else getitem r k
  end.

(** ** The validator *)

Definition EXPECTED_TAX_RATE : float := float_of_decimal false 8 (-2).
Definition TOLERANCE : float := float_of_decimal false 5 (-2).

(** [data.get(f)] *)
Definition get (data : gmap string PyVal) (f : string) : PyVal :=
  default VNone (data !! f).

Definition is_None (v : PyVal) : bool :=
  match v with
  | VNone => true
  | _ => false
  end.

Definition required : list string :=
  ["bill_id"; "vendor"; "date"; "amount"; "tax"].

(** [float(v) if v is not None else 0.0], inside
    [try ... except (ValueError, TypeError)] with the fallback [0.0]. *)
Definition float_or_zero (v : PyVal) : res float :=
  match (if is_None v then Ret fzero else py_float v) with
  | Ret f => Ret f
  | Raise ValueError | Raise TypeError => Ret fzero
  | Raise e => Raise e
  end.

(** The loop over the candidate subtotals: [(valid, used_subtotal,
    actual_rate)] when it ends. *)
Fixpoint tax_rate_loop (tax : float) (subtotals : list float)
  : bool * float * float :=
  match subtotals with
  | [] => (false, fzero, fzero)
  | subtotal :: rest =>
      if fle subtotal fzero then tax_rate_loop tax rest
      else
        match truediv tax subtotal with
        | Raise _ => tax_rate_loop tax rest
        | Ret rate =>
            if fle (fabs (fsub rate EXPECTED_TAX_RATE)) TOLERANCE
            then (true, subtotal, rate)
            else tax_rate_loop tax rest
        end
  end.

Definition hundred : float := float_of_Z 100.

Definition validate_receipt (receipt_exists : PyVal -> bool)
    (data : gmap string PyVal) (skip_duplicate : bool) : res Report :=
  let checks := [] in
  let passed := true in
  (* ---------- Required Fields ---------- *)
  let missing_fields := filter (fun f => is_None (get data f) = true) required in
  match missing_fields with
  | _ :: _ =>
      let checks :=
        setitem checks "required_fields"
          {| pass := false; info := missing missing_fields |} in
      let passed := false in
      Ret {| passed := passed; checks := checks |}
  | [] =>
      let checks :=
        setitem checks "required_fields"
          {| pass := true; info := details "All required fields present" |} in
      (* ---------- Date Format ---------- *)
      let date_val := get data "date" in
      '(checks, passed) ←
        match
          text ← builtin_str date_val;
          _ ← strptime_ymd text;
          builtin_str date_val
        with
        | Ret shown =>
            Ret (setitem checks "date_format"
                   {| pass := true; info := details ("Valid date: " ++ shown) |},
                 passed)
        | Raise _ =>
            shown ← builtin_str date_val;
            Ret (setitem checks "date_format"
                   {| pass := false;
                      info := details ("Invalid date format: " ++ shown) |},
                 false)
        end;
      (* ---------- Amount & Tax Validation ---------- *)
      amount ← float_or_zero (get data "amount");
      tax ← float_or_zero (get data "tax");
      (* ---------- Total Validation ---------- *)
      let '(checks, passed) :=
        if fgt amount fzero then
          (setitem checks "total_amount"
             {| pass := true; info := value ("₹" ++ format_fixed 2 amount) |},
           passed)
        else
          (setitem checks "total_amount"
             {| pass := false; info := details "Invalid amount value" |},
           false) in
      (* ---------- Tax Rate Validation ---------- *)
      let '(checks, passed) :=
        if feq tax fzero then
          (setitem checks "tax_rate"
             {| pass := true; info := details "No tax applied" |},
           passed)
        else
          let subtotal_option_1 := fsub amount tax in
          let subtotal_option_2 := amount in
          let '(valid, used_subtotal, actual_rate) :=
            tax_rate_loop tax [subtotal_option_1; subtotal_option_2] in
          if valid then
            (setitem checks "tax_rate"
               {| pass := true;
                  info := details
                    ("Tax rate OK ("
                     ++ format_fixed 2 (fmul actual_rate hundred)
                     ++ "%, Subtotal ₹" ++ format_fixed 2 used_subtotal ++ ")") |},
             passed)
          else
            (setitem checks "tax_rate"
               {| pass := false;
                  info := details
                    ("Tax mismatch. Expected ~"
                     ++ format_fixed 1 (fmul EXPECTED_TAX_RATE hundred)
                     ++ "% but got ₹" ++ format_fixed 2 tax
                     ++ " on amount ₹" ++ format_fixed 2 amount) |},
             false) in
      (* ---------- Duplicate Detection ---------- *)
      let '(checks, passed) :=
        if negb skip_duplicate then
          if receipt_exists (get data "bill_id") then
            (setitem checks "is_duplicate"
               {| pass := false; info := details "Duplicate receipt found" |},
             false)
          else
            (setitem checks "is_duplicate"
               {| pass := true; info := details "No duplicate found" |},
             passed)
        else
          (setitem checks "is_duplicate"
             {| pass := true; info := details "Duplicate check skipped" |},
           passed) in
      Ret {| passed := passed; checks := checks |}
  end.

(** ** The entries of a full report *)

(** What each stage of [validate_receipt] enters in [checks], as a function
    of what the stage reads; for the date stage, of a date that [str]
    shows. *)

Definition check_required_fields : Check :=
  {| pass := true; info := details "All required fields present" |}.

Definition check_date_format (date_val : PyVal) : Check :=
  match strptime_ymd (py_str date_val) with
  | Ret _ =>
      {| pass := true; info := details ("Valid date: " ++ py_str date_val) |}
  | Raise _ =>
      {| pass := false;
         info := details ("Invalid date format: " ++ py_str date_val) |}
  end.

Definition check_total_amount (amount : float) : Check :=
  if fgt amount fzero
  then {| pass := true; info := value ("₹" ++ format_fixed 2 amount) |}
  else {| pass := false; info := details "Invalid amount value" |}.

Definition tax_rate_ok (rate subtotal : float) : Check :=
  {| pass := true;
     info := details
       ("Tax rate OK (" ++ format_fixed 2 (fmul rate hundred)
        ++ "%, Subtotal ₹" ++ format_fixed 2 subtotal ++ ")") |}.

Definition tax_rate_mismatch (amount tax : float) : Check :=
  {| pass := false;
     info := details
       ("Tax mismatch. Expected ~"
        ++ format_fixed 1 (fmul EXPECTED_TAX_RATE hundred)
        ++ "% but got ₹" ++ format_fixed 2 tax
        ++ " on amount ₹" ++ format_fixed 2 amount) |}.

Definition check_tax_rate (amount tax : float) : Check :=
  if feq tax fzero
  then {| pass := true; info := details "No tax applied" |}
  else
    match tax_rate_loop tax [fsub amount tax; amount] with
    | (true, used_subtotal, actual_rate) => tax_rate_ok actual_rate used_subtotal
    | (false, _, _) => tax_rate_mismatch amount tax
    end.

Definition check_is_duplicate (found skip_duplicate : bool) : Check :=
  if skip_duplicate
  then {| pass := true; info := details "Duplicate check skipped" |}
  else if found
  then {| pass := false; info := details "Duplicate receipt found" |}
  else {| pass := true; info := details "No duplicate found" |}.

Definition full_report (receipt_exists : PyVal -> bool)
    (data : gmap string PyVal) (skip_duplicate : bool) (amount tax : float)
  : Report :=
  let c2 := check_date_format (get data "date") in
  let c3 := check_total_amount amount in
  let c4 := check_tax_rate amount tax in
  let c5 := check_is_duplicate (receipt_exists (get data "bill_id")) skip_duplicate in
  {| passed := pass c2 && pass c3 && pass c4 && pass c5;
     checks := [("required_fields", check_required_fields);
                ("date_format", c2); ("total_amount", c3);
                ("tax_rate", c4); ("is_duplicate", c5)] |}.

(** ** Conditions on a record *)

(** A field is missing when the key is absent or holds [None]. *)
Definition is_missing (data : gmap string PyVal) (f : string) : Prop :=
  data !! f = None \/ data !! f = Some VNone.

Definition all_present (data : gmap string PyVal) : Prop :=
  Forall (fun f => ~ is_missing data f) required.

(** The run reaches the two conversions and both return: the date has
    been shown, and [amount] and [tax] are the floats the validator goes on
    with. *)
Definition coerced (data : gmap string PyVal) (amount tax : float) : Prop :=
  (exists text, builtin_str (get data "date") = Ret text)
  /\ float_or_zero (get data "amount") = Ret amount
  /\ float_or_zero (get data "tax") = Ret tax.

(** An integer with more digits than [str] accepts. *)
Definition too_long (v : PyVal) : Prop :=
  exists z, v = VInt z /\ 10 ^ int_max_str_digits <= Z.abs z.

(** The conversion is refused for a value that is not a number. *)
Definition coercion_fails (v : PyVal) : Prop :=
  py_float v = Raise ValueError \/ py_float v = Raise TypeError.

Definition check_names : list string :=
  ["required_fields"; "date_format"; "total_amount"; "tax_rate"; "is_duplicate"].

(** The report of the early return. *)
Definition short_report (fields : list string) : Report :=
  {| passed := false;
     checks := [("required_fields", {| pass := false; info := missing fields |})] |}.

(** ** Sample records *)

Definition receipt (date amount tax : PyVal) : gmap string PyVal :=
  {[ "bill_id" := VStr "INV-001"; "vendor" := VStr "Acme";
     "date" := date; "amount" := amount; "tax" := tax ]}.

(** No bill id, a null vendor, an empty date and a zero tax. *)
Definition receipt_with_gaps : gmap string PyVal :=
  {[ "vendor" := VNone; "date" := VStr ""; "amount" := VInt 120;
     "tax" := VInt 0 ]}.

Definition never : PyVal -> bool := fun _ => false.
Definition always : PyVal -> bool := fun _ => true.

(** ** The tax rule in the words of the specification *)

(** A rate is within tolerance when it is no further than [TOLERANCE] from
    [EXPECTED_TAX_RATE]. *)
Definition within_tolerance (rate : float) : bool :=
  fle (fabs (fsub rate EXPECTED_TAX_RATE)) TOLERANCE.

(** A candidate subtotal qualifies when it is not skipped (it is not [<= 0])
    and the rate [tax / subtotal] is within tolerance. *)
Definition qualifies (tax subtotal : float) : bool :=
  negb (fle subtotal fzero) && within_tolerance (fdiv tax subtotal).

(** ** The date format in the words of the specification *)

(** Four digits, a hyphen, two digits, a hyphen, two digits and nothing
    else, naming a day of the calendar. *)
Definition strict_ymd (s : string) : bool :=
  match s with
  | String y1 (String y2 (String y3 (String y4 (String h1
      (String m1 (String m2 (String h2 (String d1 (String d2 EmptyString))))))))) =>
      let y := 1000 * digit y1 + 100 * digit y2 + 10 * digit y3 + digit y4 in
      let m := 10 * digit m1 + digit m2 in
      let d := 10 * digit d1 + digit d2 in
      forallb is_digit [y1; y2; y3; y4; m1; m2; d1; d2]
      && (h1 =? "-")%char && (h2 =? "-")%char
      && (1 <=? y)
      && ((1 <=? m) && (m <=? 12))
      && ((1 <=? d) && (d <=? days_in_month y m))
  | _ => false
  end.

(** A text that is one decimal digit, of any script. *)
Definition digit_char (c : string) : Prop :=
  exists v, read_digit c = Some (v, EmptyString).

(** The texts of the shape accepted for a date: a year of four decimal
    digits, a hyphen, a month of one or two ASCII characters, a hyphen, a
    day of one ASCII character, maybe followed by one decimal digit, and
    nothing more. *)
Definition date_shaped (s : string) : Prop :=
  exists y1 y2 y3 y4 mt d1 d2,
    s = String.append y1 (String.append y2 (String.append y3 (String.append y4
          (String "-" (String.append mt (String "-" (String d1 d2)))))))
    /\ digit_char y1 /\ digit_char y2 /\ digit_char y3 /\ digit_char y4
    /\ (1 <= String.length mt <= 2)%nat /\ all_ascii mt = true
    /\ code d1 < 128
    /\ (d2 = EmptyString \/ digit_char d2).

(** ** The validation page: [validation_ui] *)

(** The search of a stored receipt and the page around it.  What the page
    shows is kept as the list of the calls made to the display, in order;
    what the widgets and the session hand back is an input. *)

(** [needle in hay] on texts. *)
Fixpoint contains (needle hay : string) : bool :=
  String.prefix needle hay
  || match hay with
     | String _ r => contains needle r
     | EmptyString => false
     end.

(** The truth value of a text: it is not empty. *)
Definition nonempty (s : string) : bool :=
  match s with
  | EmptyString => false
  | String _ _ => true
  end.

(** [r.get(k, d)] *)
Definition get_default (r : gmap string PyVal) (k : string) (d : PyVal) : PyVal :=
  default d (r !! k).

(** The four text boxes and the button of the page. *)
Record PageInput : Type :=
  { in_bill_id : string; in_vendor : string;
    in_amount : string; in_tax : string; in_run : bool }.

(** A numeric filter, [if float(box) != r_value: continue] inside
    [try ... except ValueError: pass]: does the receipt stay in? *)
Definition number_filter (box : string) (r_value : float) : res bool :=
  if nonempty box then
    match float_of_str box with
    | Ret x => Ret (feq x r_value)
    | Raise ValueError => Ret true
    | Raise e => Raise e
    end
  else Ret true.

Section StoredSearch.

(** [str.lower] of the interpreter, which folds the letters of every
    script. *)
Variable str_lower : string -> string.

(** One turn of the loop over the stored receipts: [true] when the receipt
    is the match, [false] when the loop goes on. *)
Definition stored_receipt_matches (q : PageInput) (r : gmap string PyVal)
  : res bool :=
  r_bill_id ← builtin_str (get_default r "bill_id" (VStr ""));
  r_vendor ← builtin_str (get_default r "vendor" (VStr ""));
  r_amount ← py_float (get_default r "amount" (VFloat fzero));
  r_tax ← py_float (get_default r "tax" (VFloat fzero));
  if nonempty (in_bill_id q) && negb (contains (in_bill_id q) r_bill_id)
  then Ret false
  else if nonempty (in_vendor q)
          && negb (contains (str_lower (in_vendor q)) (str_lower r_vendor))
  then Ret false
  else
    keep ← number_filter (in_amount q) r_amount;
    if negb keep then Ret false
    else
      keep ← number_filter (in_tax q) r_tax;
      if negb keep then Ret false else Ret true.

(** The loop: the first receipt that matches, [None] when the list is
    exhausted. *)
Fixpoint find_stored_match (q : PageInput) (receipts : list (gmap string PyVal))
  : res (option (gmap string PyVal)) :=
  match receipts with
  | [] => Ret None
  | r :: rest =>
      m ← stored_receipt_matches q r;
      if (m : bool) then Ret (Some r) else find_stored_match q rest
  end.

End StoredSearch.

(** A call to the display. *)
Inductive UiEvent : Type :=
| st_header (text : string)
| st_subheader (text : string)
| st_info (text : string)
| st_success (text : string)
| st_error (text : string)
| st_divider
| st_columns (n : nat)
| st_text_input (label : string)
| st_button (label : string).

(** What can end the page early. *)
Inductive PageExn : Type :=
| KeyError (key : string)
| Builtin (e : PyExn).

(** A page computation: what it has shown, and its result or the
    exception that ended it. *)
Definition ui (A : Type) : Type := list UiEvent * (A + PageExn).

Global Instance ui_ret : MRet ui := fun A a => ([], inl a).

Global Instance ui_bind : MBind ui := fun A B k m =>
  match m with
  | (shown, inl a) => let '(more, out) := k a in ((shown ++ more)%list, out)
  | (shown, inr e) => (shown, inr e)
  end.

Definition show (e : UiEvent) : ui unit := ([e], inl tt).

Definition page_raise {A : Type} (e : PageExn) : ui A := ([], inr e).

Definition of_res {A : Type} (r : res A) : ui A :=
  match r with
  | Ret a => mret a
  | Raise e => page_raise (Builtin e)
  end.

(** The two entries of the dictionary [validate_receipt] returns. *)
Inductive ReportItem : Type :=
| item_passed (b : bool)
| item_checks (cs : list (string * Check)).

(** [report[key]] *)
Definition report_getitem (rep : Report) (key : string) : ui ReportItem :=
  if String.eqb key "passed" then mret (item_passed (passed rep))
  else if String.eqb key "checks" then mret (item_checks (checks rep))
  else page_raise (KeyError key).

(** [for r in results: if r["status"] == "success": ... else: ...].  A
    boolean cannot be iterated, and iterating the checks yields their names,
    texts that cannot be indexed by ["status"]. *)
Definition show_results (results : ReportItem) : ui unit :=
  match results with
  | item_passed _ => page_raise (Builtin TypeError)
  | item_checks [] => mret tt
  | item_checks (_ :: _) => page_raise (Builtin TypeError)
  end.

Definition item_truth (v : ReportItem) : bool :=
  match v with
  | item_passed b => b
  | item_checks [] => false
  | item_checks (_ :: _) => true
  end.

(** The results of a report and its verdict, as both halves of the page
    show them. *)
Definition show_report (rep : Report) (passed_text failed_text : string)
  : ui unit :=
  results ← report_getitem rep "results";
  _ ← show_results results;
  verdict ← report_getitem rep "passed";
  if item_truth verdict then show (st_success passed_text)
  else show (st_error failed_text).

(** The truth value of [data and report] for the two session entries, as
    [render_upload_ui] stores them: a dictionary counts when it is not
    empty, and a report always has its two entries. *)
Definition session_truth (data : option (gmap string PyVal))
    (report : option Report) : bool :=
  match data, report with
  | Some d, Some _ => negb (Nat.eqb (size d) 0)
  | _, _ => false
  end.

(** The page.  [receipts] is what [fetch_all_receipts] returns, read only
    when the button was pressed. *)
Definition validation_ui (str_lower : string -> string)
    (receipt_exists : PyVal -> bool)
    (receipts : list (gmap string PyVal))
    (data : option (gmap string PyVal)) (report : option Report)
    (q : PageInput) : ui unit :=
  _ ← show (st_header "🧾 Receipt Validation");
  (* ================= CURRENT UPLOADED RECEIPT ================= *)
  _ ← match report with
      | Some rep =>
          if session_truth data report then
            _ ← show (st_subheader "🎯 Current Uploaded Receipt");
            show_report rep "🎉 Receipt passed validation"
              "❌ Receipt failed validation"
          else show (st_info "No receipt uploaded yet")
      | None => show (st_info "No receipt uploaded yet")
      end;
  _ ← show st_divider;
  (* ================= STORED RECEIPT VALIDATION ================= *)
  _ ← show (st_subheader "🔍 Validate Stored Receipt");
  _ ← show (st_columns 4);
  _ ← show (st_text_input "Bill ID");
  _ ← show (st_text_input "Vendor");
  _ ← show (st_text_input "Amount");
  _ ← show (st_text_input "Tax");
  _ ← show (st_button "Run Validation");
  if in_run q then
    found ← of_res (find_stored_match str_lower q receipts);
    match found with
    | None => show (st_error "No matching stored receipt found")
    | Some match_data =>
        stored_report ← of_res (validate_receipt receipt_exists match_data true);
        shown ← of_res (builtin_str (get_default match_data "bill_id" (VStr "Unknown")));
        _ ← show (st_subheader ("🧪 Validation for " ++ shown));
        show_report stored_report "🎉 Stored receipt passed validation"
          "❌ Stored receipt failed validation"
    end
  else mret tt.

(** What the page shows up to the button when no receipt was uploaded. *)
Definition page_frame : list UiEvent :=
  [st_header "🧾 Receipt Validation"; st_info "No receipt uploaded yet";
   st_divider; st_subheader "🔍 Validate Stored Receipt"; st_columns 4;
   st_text_input "Bill ID"; st_text_input "Vendor"; st_text_input "Amount";
   st_text_input "Tax"; st_button "Run Validation"].

(** An integer too large for a float. *)
Definition overflows (v : PyVal) : Prop :=
  exists z s, v = VInt z /\ float_of_Z z = S754_infinity s.

(** A stored receipt and a page input for the examples. *)
Definition stored_acme : gmap string PyVal :=
  receipt (VStr "2024-01-15") (VFloat (float_of_Z 1000)) (VFloat (float_of_Z 80)).

Definition stored_no_amount : gmap string PyVal :=
  {[ "bill_id" := VStr "INV-002"; "vendor" := VStr "Bolt";
     "date" := VStr "2024-02-01"; "amount" := VNone; "tax" := VInt 5 ]}.

Definition stored_bolt : gmap string PyVal :=
  {[ "bill_id" := VStr "INV-002"; "vendor" := VStr "Bolt";
     "date" := VStr "2024-02-01"; "amount" := VFloat (float_of_Z 50);
     "tax" := VFloat (float_of_Z 4) ]}.

Definition stored_receipts : list (gmap string PyVal) :=
  [stored_bolt; stored_acme].

Definition ask (bill_id vendor amount tax : string) : PageInput :=
  {| in_bill_id := bill_id; in_vendor := vendor;
     in_amount := amount; in_tax := tax; in_run := true |}.

(** ** Basic facts *)

Lemma is_None_true v : is_None v = true <-> v = VNone.
Proof. destruct v; simpl; split; congruence. Qed.

Lemma get_None_missing data f : get data f = VNone <-> is_missing data f.
Proof.
  unfold get, is_missing. destruct (data !! f) as [v|]; simpl.
  - split; [intros ->; by right | intros [?|?]; congruence].
  - split; [by left | done].
Qed.

Lemma filter_missing_spec data f :
  f ∈ filter (fun f => is_None (get data f) = true) required
  <-> f ∈ required /\ is_missing data f.
Proof.
  rewrite list_elem_of_filter, is_None_true, get_None_missing. tauto.
Qed.

Lemma filter_missing_nil data :
  all_present data ->
  filter (fun f => is_None (get data f) = true) required = [].
Proof.
  intros Hall.
  destruct (filter _ required) as [|f l] eqn:E; [done|].
  assert (Hf : f ∈ filter (fun f => is_None (get data f) = true) required)
    by (rewrite E; left).
  apply filter_missing_spec in Hf as [Hreq Hmiss].
  unfold all_present in Hall. rewrite Forall_forall in Hall.
  destruct (Hall f Hreq Hmiss).
Qed.

(** What [str] returns is the text of the value. *)
Lemma builtin_str_Ret v text : builtin_str v = Ret text -> text = py_str v.
Proof.
  destruct v as [| | z | | |]; unfold builtin_str;
    try destruct (_ <=? Z.abs z); congruence.
Qed.

(** [str] refuses the integers that are too long, and nothing else. *)
Lemma builtin_str_cases v :
  (too_long v /\ builtin_str v = Raise ValueError)
  \/ (~ too_long v /\ builtin_str v = Ret (py_str v)).
Proof.
  destruct v as [| | z | | |]; unfold builtin_str;
    try (right; split; [intros (z' & Hz & _); discriminate Hz | reflexivity]).
  destruct (Z.leb_spec (10 ^ int_max_str_digits) (Z.abs z)) as [Hle|Hlt].
  - left. split; [exists z; done | reflexivity].
  - right. split; [|reflexivity].
    intros (z' & Hz & Hle). injection Hz as <-. lia.
Qed.

Lemma builtin_str_raises v e :
  builtin_str v = Raise e <-> too_long v /\ e = ValueError.
Proof.
  destruct (builtin_str_cases v) as [[Hl ->]|[Hn ->]]; split.
  - intros H. injection H as <-. done.
  - intros [_ ->]. reflexivity.
  - discriminate.
  - intros [Hl _]. destruct (Hn Hl).
Qed.

Lemma builtin_str_returns v :
  (exists text, builtin_str v = Ret text) <-> ~ too_long v.
Proof.
  destruct (builtin_str_cases v) as [[Hl E]|[Hn E]]; rewrite E; split.
  - intros [text H]. discriminate H.
  - intros Hn. destruct (Hn Hl).
  - done.
  - eauto.
Qed.

(** With every required field present, the date shown and both conversions
    done, the validator returns the full report. *)
Lemma validate_receipt_full receipt_exists data skip_duplicate amount tax :
  all_present data -> coerced data amount tax ->
  validate_receipt receipt_exists data skip_duplicate
  = Ret (full_report receipt_exists data skip_duplicate amount tax).
Proof.
  intros Hall ([text Hd] & Ha & Ht). unfold validate_receipt.
  pose proof (builtin_str_Ret _ _ Hd) as ->.
  rewrite (filter_missing_nil _ Hall), Hd, Ha, Ht.
  unfold mbind, res_bind; cbv beta iota.
  unfold full_report, check_date_format, check_total_amount, check_tax_rate,
    check_is_duplicate.
  destruct (strptime_ymd _); destruct (fgt amount fzero);
    destruct (feq tax fzero);
    try destruct (tax_rate_loop _ _) as [[[] u] r];
    destruct skip_duplicate; destruct (receipt_exists _); reflexivity.
Qed.

Lemma filter_missing_nil_inv data :
  filter (fun f => is_None (get data f) = true) required = [] ->
  all_present data.
Proof.
  intros E. unfold all_present. rewrite Forall_forall. intros f Hreq Hmiss.
  assert (Hf : f ∈ filter (fun f => is_None (get data f) = true) required)
    by (apply filter_missing_spec; done).
  rewrite E in Hf. by apply elem_of_nil in Hf.
Qed.

(** A returned report is the short one or the full one. *)
Lemma validate_receipt_Ret receipt_exists data skip_duplicate rep :
  validate_receipt receipt_exists data skip_duplicate = Ret rep ->
  (exists f fields,
      filter (fun f => is_None (get data f) = true) required = f :: fields
      /\ rep = short_report (f :: fields))
  \/ (all_present data
      /\ exists amount tax,
          coerced data amount tax
          /\ rep = full_report receipt_exists data skip_duplicate amount tax).
Proof.
  intros H.
  destruct (filter (fun f => is_None (get data f) = true) required)
    as [|f fields] eqn:E.
  - right. pose proof (filter_missing_nil_inv _ E) as Hall. split; [done|].
    destruct (builtin_str (get data "date")) as [text|e] eqn:Hd.
    + pose proof (builtin_str_Ret _ _ Hd) as ->.
      destruct (float_or_zero (get data "amount")) as [amount|e] eqn:Ha.
      * destruct (float_or_zero (get data "tax")) as [tax|e] eqn:Ht.
        -- exists amount, tax. split; [unfold coerced; eauto|].
           rewrite (validate_receipt_full _ _ _ amount tax) in H
             by (unfold coerced; eauto).
           congruence.
        -- unfold validate_receipt in H. rewrite E, Hd, Ha, Ht in H.
           unfold mbind, res_bind in H; cbv beta iota in H.
           destruct (strptime_ymd _); discriminate H.
      * unfold validate_receipt in H. rewrite E, Hd, Ha in H.
        unfold mbind, res_bind in H; cbv beta iota in H.
        destruct (strptime_ymd _); discriminate H.
    + unfold validate_receipt in H. rewrite E, Hd in H. discriminate H.
  - left. exists f, fields. split; [done|].
    unfold validate_receipt in H. rewrite E in H.
    injection H as <-. reflexivity.
Qed.

Lemma check_date_format_details v :
  exists text, info (check_date_format v) = details text.
Proof. unfold check_date_format. destruct (strptime_ymd _); simpl; eauto. Qed.

Lemma check_tax_rate_details amount tax :
  exists text, info (check_tax_rate amount tax) = details text.
Proof.
  unfold check_tax_rate. destruct (feq tax fzero); [simpl; eauto|].
  destruct (tax_rate_loop _ _) as [[[] u] r]; simpl; eauto.
Qed.

Lemma check_is_duplicate_details found skip :
  exists text, info (check_is_duplicate found skip) = details text.
Proof. destruct found, skip; simpl; eauto. Qed.

Lemma check_total_amount_shape amount :
  (exists text, info (check_total_amount amount) = details text)
  \/ (pass (check_total_amount amount) = true
      /\ exists text, info (check_total_amount amount) = value text).
Proof.
  unfold check_total_amount. destruct (fgt amount fzero); simpl; eauto.
Qed.

(** Every required field of a sample record is there. *)
Ltac sample_present :=
  unfold all_present, required;
  repeat apply Forall_cons_2; try apply Forall_nil_2;
  intros [H|H]; vm_compute in H; discriminate H.

Ltac sample_coerced :=
  split; [eexists; reflexivity | split; vm_compute; reflexivity].

(** ** The early return *)

(** C1. When at least one of the five required fields is absent or null,
    the validator returns a report that has failed and holds the single
    check [required_fields], failed, whose [missing] list names exactly the
    absent or null required fields, each once.  Nothing else is entered, and
    the lookup of duplicates plays no part.  An empty text or a zero is a
    value like any other: [is_missing] only covers an absent key and
    [None]. *)
Theorem C1_missing_field_returns_early receipt_exists data skip_duplicate :
  (exists f, f ∈ required /\ is_missing data f) ->
  exists fields,
    validate_receipt receipt_exists data skip_duplicate
    = Ret {| passed := false;
             checks := [("required_fields",
                         {| pass := false; info := missing fields |})] |}
    /\ NoDup fields
    /\ forall f, f ∈ fields <-> f ∈ required /\ is_missing data f.
Proof.
  intros (f0 & Hreq & Hmiss).
  exists (filter (fun f => is_None (get data f) = true) required).
  split; [|split].
  - unfold validate_receipt.
    destruct (filter _ required) as [|f l] eqn:E; [|reflexivity].
    assert (Hf : f0 ∈ filter (fun f => is_None (get data f) = true) required)
      by (apply filter_missing_spec; done).
    rewrite E in Hf. by apply elem_of_nil in Hf.
  - apply NoDup_filter. unfold required. compute_done.
  - apply filter_missing_spec.
Qed.

Lemma C1_witness :
  exists fields,
    validate_receipt always receipt_with_gaps false
    = Ret {| passed := false;
             checks := [("required_fields",
                         {| pass := false; info := missing fields |})] |}
    /\ NoDup fields
    /\ forall f, f ∈ fields <-> f ∈ required /\ is_missing receipt_with_gaps f.
Proof.
  apply (C1_missing_field_returns_early always receipt_with_gaps false).
  exists "vendor". split.
  - unfold required. apply list_elem_of_further, list_elem_of_here.
  - right. reflexivity.
Defined.

(** The record with gaps: the bill id and the vendor are reported, the empty
    date and the zero tax are not. *)
Example receipt_with_gaps_report :
  validate_receipt always receipt_with_gaps false
  = Ret (short_report ["bill_id"; "vendor"]).
Proof. vm_compute. reflexivity. Qed.

(** ** The overall verdict *)

Lemma full_report_passed receipt_exists data skip_duplicate amount tax :
  passed (full_report receipt_exists data skip_duplicate amount tax) = true
  <-> forall name c,
        (name, c) ∈ checks (full_report receipt_exists data skip_duplicate amount tax)
        -> pass c = true.
Proof.
  unfold full_report; simpl. rewrite !andb_true_iff. split.
  - intros [[[H2 H3] H4] H5] name c Hin.
    repeat (apply elem_of_cons in Hin as [Hin|Hin];
            [injection Hin as -> ->; done|]).
    by apply elem_of_nil in Hin.
  - intros H. repeat split; eapply H.
    + apply list_elem_of_further, list_elem_of_here.
    + do 2 apply list_elem_of_further. apply list_elem_of_here.
    + do 3 apply list_elem_of_further. apply list_elem_of_here.
    + do 4 apply list_elem_of_further. apply list_elem_of_here.
Qed.

(** C6. In every report the validator returns, [passed] is true exactly
    when every check held by the report has passed: it is the conjunction of
    the checks that were made. *)
Theorem C6_passed_iff_all_checks_pass receipt_exists data skip_duplicate rep :
  validate_receipt receipt_exists data skip_duplicate = Ret rep ->
  passed rep = true
  <-> forall name c, (name, c) ∈ checks rep -> pass c = true.
Proof.
  intros H.
  apply validate_receipt_Ret in H
    as [(f & fields & _ & ->)|(_ & amount & tax & _ & ->)].
  - simpl. split; [discriminate|]. intros H.
    apply (H "required_fields" {| pass := false; info := missing (f :: fields) |}).
    apply list_elem_of_here.
  - apply full_report_passed.
Qed.

Lemma C6_witness :
  passed (full_report always (receipt (VStr "2024-01-15") (VInt 1000) (VInt 80))
            false (float_of_Z 1000) (float_of_Z 80)) = true
  <-> forall name c,
        (name, c) ∈ checks (full_report always
                              (receipt (VStr "2024-01-15") (VInt 1000) (VInt 80))
                              false (float_of_Z 1000) (float_of_Z 80))
        -> pass c = true.
Proof.
  apply (C6_passed_iff_all_checks_pass always
           (receipt (VStr "2024-01-15") (VInt 1000) (VInt 80)) false).
  vm_compute. reflexivity.
Defined.

(** ** The shape of a check *)

(** C5, as the code has it.  Every check of a returned report bears one of
    the five names and a boolean verdict, and holds a [details] text or a
    [missing] list, except the [total_amount] check that passed: that one
    holds the formatted amount under [value]. *)
Theorem C5_check_shape receipt_exists data skip_duplicate rep :
  validate_receipt receipt_exists data skip_duplicate = Ret rep ->
  forall name c, (name, c) ∈ checks rep ->
    name ∈ check_names
    /\ ((exists text, info c = details text)
        \/ (exists fields, info c = missing fields)
        \/ (name = "total_amount" /\ pass c = true
            /\ exists text, info c = value text)).
Proof.
  intros H name c Hin.
  apply validate_receipt_Ret in H
    as [(f & fields & _ & ->)|(_ & amount & tax & _ & ->)].
  - simpl in Hin. apply list_elem_of_singleton in Hin. injection Hin as -> ->.
    split; [apply list_elem_of_here|]. right; left. simpl; eauto.
  - unfold full_report in Hin; simpl in Hin.
    repeat (apply elem_of_cons in Hin as [Hin|Hin]; [injection Hin as -> ->|]);
      [| | | | |by apply elem_of_nil in Hin];
      (split; [unfold check_names; compute_done|]).
    + left. simpl; eauto.
    + left. apply check_date_format_details.
    + destruct (check_total_amount_shape amount) as [?|[? ?]]; [by left|].
      right; right. done.
    + left. apply check_tax_rate_details.
    + left. apply check_is_duplicate_details.
Qed.

Lemma C5_witness :
  "required_fields" ∈ check_names
  /\ ((exists text,
         info {| pass := false; info := missing ["bill_id"; "vendor"] |}
         = details text)
      \/ (exists fields,
            info {| pass := false; info := missing ["bill_id"; "vendor"] |}
            = missing fields)
      \/ ("required_fields" = "total_amount"
          /\ pass {| pass := false; info := missing ["bill_id"; "vendor"] |} = true
          /\ exists text,
              info {| pass := false; info := missing ["bill_id"; "vendor"] |}
              = value text)).
Proof.
  apply (C5_check_shape always receipt_with_gaps false
           (short_report ["bill_id"; "vendor"])).
  - vm_compute. reflexivity.
  - apply list_elem_of_here.
Defined.

(** C5 as stated fails: the [total_amount] check of a receipt of 1000 has
    neither a [details] text nor a [missing] list. *)
Lemma C5_counterexample :
  exists rep c,
    validate_receipt never (receipt (VStr "2024-01-15") (VInt 1000) (VInt 80)) false
    = Ret rep
    /\ ("total_amount", c) ∈ checks rep
    /\ (forall text, info c <> details text)
    /\ (forall fields, info c <> missing fields).
Proof.
  eexists _, {| pass := true; info := value "₹1000.00" |}.
  split; [vm_compute; reflexivity|].
  split; [do 2 apply list_elem_of_further; apply list_elem_of_here|].
  split; intros ?; discriminate.
Qed.

(** ** The amount *)

(** With every required field present, the date shown and both numbers
    converted, the [total_amount] check passes exactly when the converted
    amount is greater than zero; otherwise it fails with the details
    "Invalid amount value", whatever made the amount zero, negative or not a
    number, and the report has failed. *)
Lemma total_amount_after_conversion receipt_exists data skip_duplicate amount tax :
  all_present data -> coerced data amount tax ->
  exists rep c,
    validate_receipt receipt_exists data skip_duplicate = Ret rep
    /\ getitem (checks rep) "total_amount" = Some c
    /\ (pass c = true <-> fgt amount fzero = true)
    /\ (fgt amount fzero = false ->
        c = {| pass := false; info := details "Invalid amount value" |}
        /\ passed rep = false).
Proof.
  intros Hall Hco.
  exists (full_report receipt_exists data skip_duplicate amount tax),
    (check_total_amount amount).
  split; [by apply validate_receipt_full|].
  split; [reflexivity|].
  unfold full_report, check_total_amount; simpl.
  destruct (fgt amount fzero); simpl.
  - split; [done|discriminate].
  - split; [done|]. intros _. split; [done|].
    by rewrite andb_false_r.
Qed.

(** An amount of -5 with no tax: the check fails and so does the report. *)
Example total_amount_minus_five :
  validate_receipt never (receipt (VStr "2024-01-15") (VInt (-5)) (VInt 0)) false
  = Ret {| passed := false;
           checks :=
             [("required_fields", check_required_fields);
              ("date_format",
               {| pass := true; info := details "Valid date: 2024-01-15" |});
              ("total_amount",
               {| pass := false; info := details "Invalid amount value" |});
              ("tax_rate", {| pass := true; info := details "No tax applied" |});
              ("is_duplicate",
               {| pass := true; info := details "No duplicate found" |})] |}.
Proof. vm_compute. reflexivity. Qed.

(** C9 fails on the code: with every required field present and an amount
    of -5, a tax that is an integer beyond the range of the floats makes
    [float] raise [OverflowError] in the conversion of the tax, which the
    handler for [ValueError] and [TypeError] lets through; the validator
    raises, and there is neither a failed [total_amount] check nor a report
    that has failed. *)
Theorem C9_overflow_hides_total_amount :
  validate_receipt never
    (receipt (VStr "2024-01-15") (VInt (-5)) (VInt (10 ^ 400))) false
  = Raise OverflowError.
Proof. vm_compute. reflexivity. Qed.

(** ** The duplicate check *)

(** With [skip_duplicate] set the lookup is not consulted: whatever it
    would answer, the outcome is the same. *)
Lemma validate_receipt_skip_any_lookup lookup1 lookup2 data :
  validate_receipt lookup1 data true = validate_receipt lookup2 data true.
Proof. reflexivity. Qed.

(** C7, as the code has it.  With every required field present, the date
    shown, both numbers converted and the duplicate check not skipped: when the lookup
    finds the bill id, [is_duplicate] fails with the details
    "Duplicate receipt found" and the report has failed whatever the other
    checks say; when it does not, [is_duplicate] passes. *)
Theorem C7_duplicate_lookup receipt_exists data amount tax :
  all_present data -> coerced data amount tax ->
  exists rep c,
    validate_receipt receipt_exists data false = Ret rep
    /\ getitem (checks rep) "is_duplicate" = Some c
    /\ (receipt_exists (get data "bill_id") = true ->
        c = {| pass := false; info := details "Duplicate receipt found" |}
        /\ passed rep = false)
    /\ (receipt_exists (get data "bill_id") = false ->
        c = {| pass := true; info := details "No duplicate found" |}).
Proof.
  intros Hall Hco.
  exists (full_report receipt_exists data false amount tax),
    (check_is_duplicate (receipt_exists (get data "bill_id")) false).
  split; [by apply validate_receipt_full|].
  split; [reflexivity|].
  unfold full_report; simpl.
  destruct (receipt_exists _); simpl.
  - split; [|discriminate]. intros _. split; [done|]. apply andb_false_r.
  - split; [discriminate|done].
Qed.

Lemma C7_witness :
  exists rep c,
    validate_receipt always (receipt (VStr "2024-01-15") (VInt 1000) (VInt 80)) false
    = Ret rep
    /\ getitem (checks rep) "is_duplicate" = Some c
    /\ (always (get (receipt (VStr "2024-01-15") (VInt 1000) (VInt 80)) "bill_id")
        = true ->
        c = {| pass := false; info := details "Duplicate receipt found" |}
        /\ passed rep = false)
    /\ (always (get (receipt (VStr "2024-01-15") (VInt 1000) (VInt 80)) "bill_id")
        = false ->
        c = {| pass := true; info := details "No duplicate found" |}).
Proof.
  apply (C7_duplicate_lookup always
           (receipt (VStr "2024-01-15") (VInt 1000) (VInt 80))
           (float_of_Z 1000) (float_of_Z 80)).
  - sample_present.
  - sample_coerced.
Defined.

(** C7 as stated fails on the text of the details: for a bill id the lookup
    finds, they read "Duplicate receipt found", with a capital. *)
Lemma C7_counterexample :
  exists rep c,
    validate_receipt always (receipt (VStr "2024-01-15") (VInt 1000) (VInt 80)) false
    = Ret rep
    /\ getitem (checks rep) "is_duplicate" = Some c
    /\ pass c = false
    /\ info c <> details "duplicate receipt found".
Proof.
  eexists _, _. split; [vm_compute; reflexivity|].
  split; [reflexivity|]. split; [reflexivity|]. discriminate.
Qed.

(** C8, as the code has it.  With every required field present, the date
    shown, both numbers converted and the duplicate check skipped,
    [is_duplicate] passes with the details "Duplicate check skipped", and
    two lookups whatsoever lead to one and the same report. *)
Theorem C8_skip_ignores_lookup lookup1 lookup2 data amount tax :
  all_present data -> coerced data amount tax ->
  exists rep,
    validate_receipt lookup1 data true = Ret rep
    /\ validate_receipt lookup2 data true = Ret rep
    /\ getitem (checks rep) "is_duplicate"
       = Some {| pass := true; info := details "Duplicate check skipped" |}.
Proof.
  intros Hall Hco.
  exists (full_report lookup1 data true amount tax).
  split; [by apply validate_receipt_full|].
  split; [|reflexivity].
  rewrite (validate_receipt_skip_any_lookup lookup2 lookup1).
  by apply validate_receipt_full.
Qed.

Lemma C8_witness :
  exists rep,
    validate_receipt always (receipt (VStr "2024-01-15") (VInt 1000) (VInt 80)) true
    = Ret rep
    /\ validate_receipt never (receipt (VStr "2024-01-15") (VInt 1000) (VInt 80)) true
       = Ret rep
    /\ getitem (checks rep) "is_duplicate"
       = Some {| pass := true; info := details "Duplicate check skipped" |}.
Proof.
  apply (C8_skip_ignores_lookup always never
           (receipt (VStr "2024-01-15") (VInt 1000) (VInt 80))
           (float_of_Z 1000) (float_of_Z 80)).
  - sample_present.
  - sample_coerced.
Defined.

(** C8 as stated fails on the text of the details: they read
    "Duplicate check skipped", with a capital. *)
Lemma C8_counterexample :
  exists rep c,
    validate_receipt always (receipt (VStr "2024-01-15") (VInt 1000) (VInt 80)) true
    = Ret rep
    /\ getitem (checks rep) "is_duplicate" = Some c
    /\ pass c = true
    /\ info c <> details "duplicate check skipped".
Proof.
  eexists _, _. split; [vm_compute; reflexivity|].
  split; [reflexivity|]. split; [reflexivity|]. discriminate.
Qed.

(** ** The tax rate *)

Lemma fle_false_feq_false s : fle s fzero = false -> feq s fzero = false.
Proof.
  unfold fle, feq, SFleb, SFeqb.
  destruct (SFcompare s fzero) as [[]|]; congruence.
Qed.

(** The loop accepts the first candidate that qualifies. *)
Lemma tax_rate_loop_two tax s1 s2 :
  tax_rate_loop tax [s1; s2]
  = if qualifies tax s1 then (true, s1, fdiv tax s1)
    else if qualifies tax s2 then (true, s2, fdiv tax s2)
    else (false, fzero, fzero).
Proof.
  unfold qualifies, within_tolerance, tax_rate_loop, truediv.
  destruct (fle s1 fzero) eqn:E1; destruct (fle s2 fzero) eqn:E2; simpl;
    try rewrite (fle_false_feq_false _ E1);
    try rewrite (fle_false_feq_false _ E2);
    repeat match goal with
           | |- context [if ?b then _ else _] => destruct b
           end; reflexivity.
Qed.

Lemma check_tax_rate_cases amount tax :
  feq tax fzero = false ->
  check_tax_rate amount tax
  = if qualifies tax (fsub amount tax)
    then tax_rate_ok (fdiv tax (fsub amount tax)) (fsub amount tax)
    else if qualifies tax amount
    then tax_rate_ok (fdiv tax amount) amount
    else tax_rate_mismatch amount tax.
Proof.
  intros E. unfold check_tax_rate. rewrite E, tax_rate_loop_two.
  destruct (qualifies tax (fsub amount tax)); [reflexivity|].
  destruct (qualifies tax amount); reflexivity.
Qed.

(** C2, as the code has it.  With every required field present and both
    numbers converted: a tax equal to zero makes [tax_rate] pass with the
    details "No tax applied".  Otherwise [tax_rate] passes exactly when one
    of the candidates [amount - tax], [amount] qualifies, that is, is not
    [<= 0] and gives a rate [tax / candidate] within 0.05 of 0.08; the
    first that qualifies, in that order, is the one the details record with
    its rate; when neither does, the check fails.  The rate, the distance
    and the comparison are those of binary64 arithmetic. *)
Theorem C2_tax_rate receipt_exists data skip_duplicate amount tax :
  all_present data -> coerced data amount tax ->
  exists rep c,
    validate_receipt receipt_exists data skip_duplicate = Ret rep
    /\ getitem (checks rep) "tax_rate" = Some c
    /\ (feq tax fzero = true ->
        c = {| pass := true; info := details "No tax applied" |})
    /\ (feq tax fzero = false ->
        let s1 := fsub amount tax in
        let s2 := amount in
        (pass c = true <-> qualifies tax s1 = true \/ qualifies tax s2 = true)
        /\ (qualifies tax s1 = true -> c = tax_rate_ok (fdiv tax s1) s1)
        /\ (qualifies tax s1 = false -> qualifies tax s2 = true ->
            c = tax_rate_ok (fdiv tax s2) s2)
        /\ (qualifies tax s1 = false -> qualifies tax s2 = false ->
            c = tax_rate_mismatch amount tax /\ passed rep = false)).
Proof.
  intros Hall Hco.
  exists (full_report receipt_exists data skip_duplicate amount tax),
    (check_tax_rate amount tax).
  split; [by apply validate_receipt_full|].
  split; [reflexivity|].
  split.
  - intros E. unfold check_tax_rate. by rewrite E.
  - intros E s1 s2. subst s1 s2.
    unfold full_report; simpl passed.
    rewrite (check_tax_rate_cases _ _ E).
    destruct (qualifies tax (fsub amount tax)) eqn:Q1;
      [|destruct (qualifies tax amount) eqn:Q2]; simpl.
    + repeat split; try done. by left.
    + repeat split; try done. by right.
    + repeat split; try done.
      * intros [?|?]; discriminate.
      * by rewrite andb_false_r.
Qed.

(** The receipt of 1000 with a tax of 80: the first candidate, 920, gives a
    rate of 8.70 percent. *)
Lemma C2_witness :
  exists rep c,
    validate_receipt never (receipt (VStr "2024-01-15") (VInt 1000) (VInt 80)) false
    = Ret rep
    /\ getitem (checks rep) "tax_rate" = Some c
    /\ (feq (float_of_Z 80) fzero = true ->
        c = {| pass := true; info := details "No tax applied" |})
    /\ (feq (float_of_Z 80) fzero = false ->
        let s1 := fsub (float_of_Z 1000) (float_of_Z 80) in
        let s2 := float_of_Z 1000 in
        (pass c = true
         <-> qualifies (float_of_Z 80) s1 = true
             \/ qualifies (float_of_Z 80) s2 = true)
        /\ (qualifies (float_of_Z 80) s1 = true ->
            c = tax_rate_ok (fdiv (float_of_Z 80) s1) s1)
        /\ (qualifies (float_of_Z 80) s1 = false ->
            qualifies (float_of_Z 80) s2 = true ->
            c = tax_rate_ok (fdiv (float_of_Z 80) s2) s2)
        /\ (qualifies (float_of_Z 80) s1 = false ->
            qualifies (float_of_Z 80) s2 = false ->
            c = tax_rate_mismatch (float_of_Z 1000) (float_of_Z 80)
            /\ passed rep = false)).
Proof.
  apply (C2_tax_rate never
           (receipt (VStr "2024-01-15") (VInt 1000) (VInt 80)) false
           (float_of_Z 1000) (float_of_Z 80)).
  - sample_present.
  - sample_coerced.
Defined.

(** C2 as stated fails on the text of the details: for a tax of zero they
    read "No tax applied", with a capital. *)
Lemma C2_counterexample :
  exists rep c,
    validate_receipt never (receipt (VStr "2024-01-15") (VInt 1000) (VInt 0)) false
    = Ret rep
    /\ coerced (receipt (VStr "2024-01-15") (VInt 1000) (VInt 0))
         (float_of_Z 1000) fzero
    /\ getitem (checks rep) "tax_rate" = Some c
    /\ pass c = true
    /\ info c <> details "no tax applied".
Proof.
  eexists _, _. split; [vm_compute; reflexivity|].
  split; [sample_coerced|].
  split; [reflexivity|]. split; [reflexivity|]. discriminate.
Qed.

(** The examples of the specification. *)
Example tax_80_on_1000 :
  check_tax_rate (float_of_Z 1000) (float_of_Z 80)
  = {| pass := true;
       info := details "Tax rate OK (8.70%, Subtotal ₹920.00)" |}.
Proof. vm_compute. reflexivity. Qed.

Example tax_200_on_500 :
  check_tax_rate (float_of_Z 500) (float_of_Z 200)
  = {| pass := false;
       info := details
         "Tax mismatch. Expected ~8.0% but got ₹200.00 on amount ₹500.00" |}.
Proof. vm_compute. reflexivity. Qed.

(** The second candidate is used when the first does not qualify. *)
Example tax_120_on_1000 :
  check_tax_rate (float_of_Z 1000) (float_of_Z 120)
  = {| pass := true;
       info := details "Tax rate OK (12.00%, Subtotal ₹1000.00)" |}.
Proof. vm_compute. reflexivity. Qed.

(** The ends of the tolerance, in binary64: 0.03 and 0.13 are within, and
    so is the float just below 0.03, whose distance from 0.08 rounds to
    0.05; the float below that one and the float just above 0.13 are not. *)
Example tolerance_ends :
  within_tolerance (float_of_decimal false 3 (-2)) = true
  /\ within_tolerance (float_of_decimal false 13 (-2)) = true
  /\ within_tolerance (SFpred prec emax (float_of_decimal false 3 (-2))) = true
  /\ within_tolerance
       (SFpred prec emax (SFpred prec emax (float_of_decimal false 3 (-2))))
     = false
  /\ within_tolerance (SFsucc prec emax (float_of_decimal false 13 (-2))) = false.
Proof. vm_compute. done. Qed.

(** ** Numbers that do not convert *)

Lemma coercion_fails_zero v : coercion_fails v -> float_or_zero v = Ret fzero.
Proof.
  intros H. unfold float_or_zero. destruct (is_None v); [done|].
  by destruct H as [-> | ->].
Qed.

Lemma full_report_names receipt_exists data skip_duplicate amount tax :
  map fst (checks (full_report receipt_exists data skip_duplicate amount tax))
  = check_names.
Proof. reflexivity. Qed.

(** C3, as the code has it.  With every required field present and both
    conversions done, one of them by falling back to zero because the value
    is not a number: the report is returned with the five checks and no entry
    for the conversion; an amount that fell back to zero makes
    [total_amount] fail, and a tax that fell back to zero makes [tax_rate]
    pass with the details "No tax applied". *)
Theorem C3_failed_coercion receipt_exists data skip_duplicate amount tax :
  all_present data -> coerced data amount tax ->
  coercion_fails (get data "amount") \/ coercion_fails (get data "tax") ->
  exists rep,
    validate_receipt receipt_exists data skip_duplicate = Ret rep
    /\ map fst (checks rep) = check_names
    /\ (coercion_fails (get data "amount") ->
        amount = fzero
        /\ getitem (checks rep) "total_amount"
           = Some {| pass := false; info := details "Invalid amount value" |}
        /\ passed rep = false)
    /\ (coercion_fails (get data "tax") ->
        tax = fzero
        /\ getitem (checks rep) "tax_rate"
           = Some {| pass := true; info := details "No tax applied" |}).
Proof.
  intros Hall Hco _.
  exists (full_report receipt_exists data skip_duplicate amount tax).
  split; [by apply validate_receipt_full|].
  destruct Hco as (_ & Ha & Ht).
  split; [apply full_report_names|].
  split; intros Hf; apply coercion_fails_zero in Hf.
  - assert (amount = fzero) as -> by congruence.
    split; [done|]. split; [reflexivity|].
    unfold full_report; simpl. by rewrite andb_false_r.
  - assert (tax = fzero) as -> by congruence.
    split; [done|]. reflexivity.
Qed.

(** A receipt whose amount is a word and whose tax is a list. *)
Lemma C3_witness :
  exists rep,
    validate_receipt never
      (receipt (VStr "2024-01-15") (VStr "abc") (VOther "[]")) false = Ret rep
    /\ map fst (checks rep) = check_names
    /\ getitem (checks rep) "total_amount"
       = Some {| pass := false; info := details "Invalid amount value" |}
    /\ passed rep = false
    /\ getitem (checks rep) "tax_rate"
       = Some {| pass := true; info := details "No tax applied" |}.
Proof.
  destruct (C3_failed_coercion never
              (receipt (VStr "2024-01-15") (VStr "abc") (VOther "[]")) false
              fzero fzero)
    as (rep & Hrep & Hnames & Hamount & Htax).
  - sample_present.
  - sample_coerced.
  - left. left. vm_compute. reflexivity.
  - exists rep.
    destruct Hamount as (_ & Hc & Hp); [left; vm_compute; reflexivity|].
    destruct Htax as (_ & Ht); [right; vm_compute; reflexivity|].
    done.
Defined.

(** C3 as stated fails for the tax: a tax that is not a number falls back
    to zero, and [tax_rate] passes. *)
Lemma C3_counterexample :
  exists rep c,
    all_present (receipt (VStr "2024-01-15") (VInt 1000) (VStr "abc"))
    /\ coercion_fails (get (receipt (VStr "2024-01-15") (VInt 1000) (VStr "abc")) "tax")
    /\ validate_receipt never
         (receipt (VStr "2024-01-15") (VInt 1000) (VStr "abc")) false = Ret rep
    /\ getitem (checks rep) "tax_rate" = Some c
    /\ pass c = true.
Proof.
  eexists _, _. split; [sample_present|].
  split; [left; vm_compute; reflexivity|].
  split; [vm_compute; reflexivity|].
  split; reflexivity.
Qed.

(** ** Exceptions *)

Lemma float_of_str_raises s e : float_of_str s = Raise e -> e = ValueError.
Proof. unfold float_of_str. intros H. repeat case_match; congruence. Qed.

(** The conversion lets an exception through only for an integer beyond
    the range of the floats. *)
Lemma float_or_zero_raises v e :
  float_or_zero v = Raise e ->
  e = OverflowError
  /\ exists z s, v = VInt z /\ float_of_Z z = S754_infinity s.
Proof.
  unfold float_or_zero. destruct v as [|b|z|f|s|t]; simpl; try discriminate.
  - destruct (float_of_Z z) eqn:E; try discriminate.
    intros [= <-]. split; [done|]. eauto.
  - destruct (float_of_str s) as [f|e'] eqn:E; [discriminate|].
    apply float_of_str_raises in E as ->. discriminate.
Qed.

(** C10 fails on the code: an amount that is an integer beyond the range of
    the floats makes [float] raise [OverflowError], which the handler for
    [ValueError] and [TypeError] lets through to the caller. *)
Theorem C10_overflow_reaches_caller :
  validate_receipt never
    (receipt (VStr "2024-01-15") (VInt (10 ^ 400)) (VInt 0)) false
  = Raise OverflowError.
Proof. vm_compute. reflexivity. Qed.

(** ** The date *)

Lemma is_digit_inv c :
  is_digit c = true ->
  c = "0"%char \/ c = "1"%char \/ c = "2"%char \/ c = "3"%char
  \/ c = "4"%char \/ c = "5"%char \/ c = "6"%char \/ c = "7"%char
  \/ c = "8"%char \/ c = "9"%char.
Proof.
  destruct c as [[] [] [] [] [] [] [] []]; vm_compute; intros H;
    try discriminate H; tauto.
Qed.

Ltac each_digit c H :=
  destruct (is_digit_inv c H) as [->|[->|[->|[->|[->|[->|[->|[->|[->| ->]]]]]]]]].

(** An ASCII digit is a decimal digit, with its value. *)
Lemma read_digit_ascii c r :
  is_digit c = true -> read_digit (String c r) = Some (digit c, r).
Proof. intros H. each_digit c H; reflexivity. Qed.

(** A month written with two digits is read whole, first. *)
Lemma re_m_two_digits a b r :
  is_digit a = true -> is_digit b = true ->
  (1 <=? 10 * digit a + digit b) && (10 * digit a + digit b <=? 12) = true ->
  exists rest, re_m (String a (String b r)) = (10 * digit a + digit b, r) :: rest.
Proof.
  intros Ha Hb H.
  each_digit a Ha; each_digit b Hb;
    first [discriminate H | eexists; reflexivity].
Qed.

(** So is a day written with two digits. *)
Lemma re_d_two_digits a b r :
  is_digit a = true -> is_digit b = true ->
  (1 <=? 10 * digit a + digit b) && (10 * digit a + digit b <=? 31) = true ->
  exists rest, re_d (String a (String b r)) = (10 * digit a + digit b, r) :: rest.
Proof.
  intros Ha Hb H.
  each_digit a Ha; each_digit b Hb;
    first [discriminate H | eexists; reflexivity].
Qed.

Lemma days_in_month_le y m : days_in_month y m <= 31.
Proof. unfold days_in_month. repeat case_match; lia. Qed.

(** A text that is strictly YYYY-MM-DD is accepted, with the date it
    names. *)
Lemma strict_ymd_accepted s :
  strict_ymd s = true -> exists ymd, strptime_ymd s = Ret ymd.
Proof.
  intros H.
  destruct s as [|y1 [|y2 [|y3 [|y4 [|h1 [|m1 [|m2 [|h2 [|d1 [|d2 [|? ?]]]]]]]]]]];
    try discriminate H.
  cbn [strict_ymd forallb] in H. rewrite !andb_true_iff in H.
  destruct H as ((((((Hy1 & Hy2 & Hy3 & Hy4 & Hm1 & Hm2 & Hd1 & Hd2 & _)
                     & Hh1) & Hh2) & Hy) & Hm) & Hd & Hdim).
  apply Ascii.eqb_eq in Hh1 as ->. apply Ascii.eqb_eq in Hh2 as ->.
  apply andb_true_iff in Hm.
  assert (Hd31 : (1 <=? 10 * digit d1 + digit d2)
                 && (10 * digit d1 + digit d2 <=? 31) = true).
  { apply andb_true_iff; split; [done|].
    pose proof (days_in_month_le
                  (1000 * digit y1 + 100 * digit y2 + 10 * digit y3 + digit y4)
                  (10 * digit m1 + digit m2)).
    apply Z.leb_le in Hdim. apply Z.leb_le. lia. }
  destruct (re_m_two_digits m1 m2 (String "-" (String d1 (String d2 ""))) Hm1 Hm2 Hm)
    as [restm Em].
  destruct (re_d_two_digits d1 d2 "" Hd1 Hd2 Hd31) as [restd Ed].
  eexists. unfold strptime_ymd, match_ymd, re_Y.
  rewrite (read_digit_ascii y1) by done. cbn [mbind option_bind].
  rewrite (read_digit_ascii y2) by done. cbn [mbind option_bind].
  rewrite (read_digit_ascii y3) by done. cbn [mbind option_bind].
  rewrite (read_digit_ascii y4) by done.
  cbn [mbind option_bind lit Ascii.eqb Bool.eqb]. rewrite Em.
  cbn [flat_map lit Ascii.eqb Bool.eqb]. rewrite Ed.
  cbn [map app head]. rewrite Hy, Hdim. reflexivity.
Qed.

Lemma is_digit_bounds c : is_digit c = true -> 0 <= digit c <= 9.
Proof.
  unfold is_digit, digit. rewrite andb_true_iff, !Z.leb_le. lia.
Qed.

Lemma in_range_bounds lo hi c : in_range lo hi c = true -> lo <= digit c <= hi.
Proof.
  unfold in_range. rewrite !andb_true_iff, !Z.leb_le. lia.
Qed.

Lemma append_empty s : String.append s EmptyString = s.
Proof.
  induction s as [|c s IH]; [reflexivity|].
  change (String c (String.append s EmptyString) = String c s). by rewrite IH.
Qed.

(** What is read at the head of a text is one character, and the rest is
    the rest. *)
Lemma next_char_spec s cp r :
  next_char s = Some (cp, r) ->
  exists c, s = String.append c r /\ next_char c = Some (cp, EmptyString).
Proof.
  unfold next_char. destruct s as [|b0 r0]; [discriminate|].
  destruct (code b0 <? 128) eqn:E0.
  { intros [= <- <-]. exists (String b0 ""). by rewrite E0. }
  destruct (code b0 <? 192) eqn:E1; [discriminate|].
  destruct (code b0 <? 224) eqn:E2.
  { destruct r0 as [|b1 r1]; [discriminate|].
    destruct (continuation b1) as [x1|] eqn:C1; [|discriminate].
    cbn [mbind option_bind]. cbv zeta.
    destruct (128 <=? _) eqn:V; [|discriminate].
    intros [= <- <-]. exists (String b0 (String b1 "")).
    rewrite E0, E1, E2, C1. cbn [mbind option_bind]. cbv zeta.
    by rewrite V. }
  destruct (code b0 <? 240) eqn:E3.
  { destruct r0 as [|b1 [|b2 r2]]; try discriminate.
    destruct (continuation b1) as [x1|] eqn:C1; [|discriminate].
    cbn [mbind option_bind].
    destruct (continuation b2) as [x2|] eqn:C2; [|discriminate].
    cbn [mbind option_bind]. cbv zeta.
    destruct (_ && _) eqn:V; [|discriminate].
    intros [= <- <-]. exists (String b0 (String b1 (String b2 ""))).
    rewrite E0, E1, E2, E3, C1. cbn [mbind option_bind].
    rewrite C2. cbn [mbind option_bind]. cbv zeta.
    by rewrite V. }
  destruct (code b0 <? 248) eqn:E4; [|discriminate].
  destruct r0 as [|b1 [|b2 [|b3 r3]]]; try discriminate.
  destruct (continuation b1) as [x1|] eqn:C1; [|discriminate].
  cbn [mbind option_bind].
  destruct (continuation b2) as [x2|] eqn:C2; [|discriminate].
  cbn [mbind option_bind].
  destruct (continuation b3) as [x3|] eqn:C3; [|discriminate].
  cbn [mbind option_bind]. cbv zeta.
  destruct (_ && _) eqn:V; [|discriminate].
  intros [= <- <-]. exists (String b0 (String b1 (String b2 (String b3 "")))).
  rewrite E0, E1, E2, E3, E4, C1. cbn [mbind option_bind].
  rewrite C2. cbn [mbind option_bind]. rewrite C3.
  cbn [mbind option_bind]. cbv zeta.
  by rewrite V.
Qed.

Lemma decimal_value_bounds cp v : decimal_value cp = Some v -> 0 <= v <= 9.
Proof.
  unfold decimal_value.
  destruct (List.find _ decimal_zeros) as [z|] eqn:E; [|discriminate].
  apply find_some in E as [_ E]. apply andb_true_iff in E as [E1 E2].
  apply Z.leb_le in E1, E2. intros [= <-]. lia.
Qed.

(** What the class of the decimal digits reads is one character that is
    a digit, with a value from 0 to 9. *)
Lemma read_digit_spec s v r :
  read_digit s = Some (v, r) ->
  0 <= v <= 9 /\ exists c, s = String.append c r /\ digit_char c.
Proof.
  unfold read_digit.
  destruct (next_char s) as [[cp r']|] eqn:E; [|discriminate].
  cbn [mbind option_bind].
  destruct (decimal_value cp) as [v'|] eqn:D; [|discriminate].
  cbn [mbind option_bind]. intros [= <- <-].
  split; [by apply decimal_value_bounds in D|].
  apply next_char_spec in E as (c & -> & Ec).
  exists c. split; [reflexivity|]. exists v'.
  unfold read_digit. rewrite Ec. cbn [mbind option_bind]. by rewrite D.
Qed.

Lemma in_range_ascii lo hi c : in_range lo hi c = true -> (code c <? 128) = true.
Proof.
  unfold in_range, is_digit. rewrite !andb_true_iff, !Z.leb_le, Z.ltb_lt. lia.
Qed.

Ltac directive_cases a b :=
  repeat case_match; cbn [In app]; intros Hin;
  repeat match goal with
         | H : _ \/ _ |- _ => destruct H
         | H : False |- _ => destruct H
         | H : (_, _) = (_, _) |- _ => injection H as <- <-
         | H : _ && _ = true |- _ => apply andb_true_iff in H as [? ?]
         | H : (?c =? _)%char = true |- _ =>
             assert ((code c <? 128) = true)
               by (apply Ascii.eqb_eq in H; rewrite H; reflexivity);
             clear H
         | H : in_range _ _ _ = true |- _ =>
             pose proof (in_range_ascii _ _ _ H); apply in_range_bounds in H
         end;
  (split; [lia|]);
  first [ exists (String a EmptyString); cbn [String.length all_ascii];
          split; [reflexivity|]
        | exists (String a (String b EmptyString));
          cbn [String.length all_ascii]; split; [reflexivity|] ];
  (split; [lia|]);
  repeat match goal with
         | H : (code _ <? 128) = true |- _ => rewrite ?H; clear H
         end;
  reflexivity.

(** What the month directive reads is a month, written with one or two
    ASCII characters. *)
Lemma re_m_spec s m r :
  In (m, r) (re_m s) ->
  1 <= m <= 12
  /\ exists mt,
      s = String.append mt r
      /\ (1 <= String.length mt <= 2)%nat /\ all_ascii mt = true.
Proof.
  unfold re_m. destruct s as [|a [|b r']]; cbn [app]; [intros []|..].
  - directive_cases a a.
  - directive_cases a b.
Qed.

(** An ASCII digit is a text of one decimal digit. *)
Lemma digit_char_ascii b : is_digit b = true -> digit_char (String b "").
Proof. intros H. exists (digit b). by apply read_digit_ascii. Qed.

Lemma in_range_is_digit lo hi b :
  0 <= lo -> hi <= 9 -> in_range lo hi b = true -> is_digit b = true.
Proof.
  unfold in_range, is_digit, digit.
  rewrite !andb_true_iff, !Z.leb_le. lia.
Qed.

(** What the day directive reads is a day of some month, written with one
    ASCII character, maybe followed by one decimal digit. *)
Lemma re_d_spec s d r :
  In (d, r) (re_d s) ->
  1 <= d <= 31
  /\ exists d1 d2,
      s = String d1 (String.append d2 r)
      /\ code d1 < 128
      /\ (d2 = EmptyString \/ digit_char d2).
Proof.
  unfold re_d. destruct s as [|a r0]; [intros []|].
  rewrite !in_app_iff. intros [H|[H|[H|[H|H]]]].
  - destruct r0 as [|b r']; [destruct H|].
    destruct (_ && _) eqn:V; [|destruct H].
    destruct H as [[= <- <-]|[]].
    apply andb_true_iff in V as [Va V]. apply Ascii.eqb_eq in Va as ->.
    pose proof (in_range_bounds _ _ _ V).
    split; [lia|]. exists "3"%char, (String b "").
    split; [reflexivity|]. split; [done|].
    right. apply digit_char_ascii. by apply (in_range_is_digit 0 1).
  - destruct (in_range 1 2 a) eqn:V; [|destruct H].
    destruct (read_digit r0) as [[v r']|] eqn:E; [|destruct H].
    destruct H as [[= <- <-]|[]].
    pose proof (in_range_ascii _ _ _ V) as Ha. apply Z.ltb_lt in Ha.
    apply in_range_bounds in V.
    apply read_digit_spec in E as (Hv & c & -> & Hc).
    split; [lia|]. exists a, c. split; [reflexivity|]. split; [done|]. by right.
  - destruct r0 as [|b r']; [destruct H|].
    destruct (_ && _) eqn:V; [|destruct H].
    destruct H as [[= <- <-]|[]].
    apply andb_true_iff in V as [Va V]. apply Ascii.eqb_eq in Va as ->.
    pose proof (in_range_bounds _ _ _ V).
    split; [lia|]. exists "0"%char, (String b "").
    split; [reflexivity|]. split; [done|].
    right. apply digit_char_ascii. by apply (in_range_is_digit 1 9).
  - destruct (in_range 1 9 a) eqn:V; [|destruct H].
    destruct H as [[= <- <-]|[]].
    pose proof (in_range_ascii _ _ _ V) as Ha. apply Z.ltb_lt in Ha.
    apply in_range_bounds in V.
    split; [lia|]. exists a, "". split; [reflexivity|]. split; [done|]. by left.
  - destruct r0 as [|b r']; [destruct H|].
    destruct (_ && _) eqn:V; [|destruct H].
    destruct H as [[= <- <-]|[]].
    apply andb_true_iff in V as [Va V]. apply Ascii.eqb_eq in Va as ->.
    pose proof (in_range_bounds _ _ _ V).
    split; [lia|]. exists " "%char, (String b "").
    split; [reflexivity|]. split; [done|].
    right. apply digit_char_ascii. by apply (in_range_is_digit 1 9).
Qed.

Lemma re_Y_spec s y r :
  re_Y s = Some (y, r) ->
  exists y1 y2 y3 y4,
    s = String.append y1 (String.append y2 (String.append y3
          (String.append y4 r)))
    /\ digit_char y1 /\ digit_char y2 /\ digit_char y3 /\ digit_char y4
    /\ 0 <= y <= 9999.
Proof.
  unfold re_Y.
  destruct (read_digit s) as [[a r1]|] eqn:E1; [|discriminate].
  cbn [mbind option_bind].
  destruct (read_digit r1) as [[b r2]|] eqn:E2; [|discriminate].
  cbn [mbind option_bind].
  destruct (read_digit r2) as [[c r3]|] eqn:E3; [|discriminate].
  cbn [mbind option_bind].
  destruct (read_digit r3) as [[d r4]|] eqn:E4; [|discriminate].
  cbn [mbind option_bind]. intros [= <- <-].
  apply read_digit_spec in E4 as (H4 & y4 & -> & D4).
  apply read_digit_spec in E3 as (H3 & y3 & -> & D3).
  apply read_digit_spec in E2 as (H2 & y2 & -> & D2).
  apply read_digit_spec in E1 as (H1 & y1 & -> & D1).
  exists y1, y2, y3, y4. repeat split; try done; lia.
Qed.

Lemma lit_spec c s r : lit c s = Some r -> s = String c r.
Proof.
  unfold lit. destruct s as [|c' r']; [discriminate|].
  destruct (Ascii.eqb_spec c' c) as [->|]; congruence.
Qed.

(** What [strptime] accepts has the shape of a date and names a day of
    the calendar. *)
Lemma strptime_ymd_accepts s y m d :
  strptime_ymd s = Ret (y, m, d) ->
  date_shaped s
  /\ 1 <= y <= 9999 /\ 1 <= m <= 12 /\ 1 <= d <= days_in_month y m.
Proof.
  unfold strptime_ymd.
  destruct (match_ymd s) as [[[[y' m'] d'] [|? ?]]|] eqn:E; try discriminate.
  destruct ((1 <=? y') && (d' <=? days_in_month y' m')) eqn:V; [|discriminate].
  intros [= -> -> ->]. apply andb_true_iff in V as [Vy Vd].
  apply Z.leb_le in Vy, Vd.
  unfold match_ymd in E.
  destruct (re_Y s) as [[y0 r1]|] eqn:EY; [|discriminate].
  cbn [mbind option_bind] in E.
  destruct (lit "-" r1) as [r2|] eqn:EL; [|discriminate].
  cbn [mbind option_bind] in E.
  apply head_Some_elem_of, list_elem_of_In, in_flat_map in E
    as ([m0 r3] & Hm & Hin).
  destruct (lit "-" r3) as [r4|] eqn:EL2; [|destruct Hin].
  apply in_map_iff in Hin as ([d0 r5] & [= -> -> -> ->] & Hd).
  apply re_Y_spec in EY as (y1 & y2 & y3 & y4 & -> & H1 & H2 & H3 & H4 & Hy).
  apply lit_spec in EL as ->. apply lit_spec in EL2 as ->.
  apply re_m_spec in Hm as (Hm & mt & -> & Hmt & Hma).
  apply re_d_spec in Hd as (Hd & d1 & d2 & -> & Hd1 & Hd2).
  split; [|lia].
  exists y1, y2, y3, y4, mt, d1, d2. rewrite append_empty. done.
Qed.

Lemma check_date_format_pass v :
  pass (check_date_format v) = true
  <-> exists ymd, strptime_ymd (py_str v) = Ret ymd.
Proof.
  unfold check_date_format. destruct (strptime_ymd _) as [ymd|e]; simpl.
  - split; eauto.
  - split; [discriminate|]. intros [? ?]; discriminate.
Qed.

(** C4, as the code has it.  With every required field present, the date
    shown by [str] and both numbers converted, the report is returned with
    the five checks, and the [date_format] check passes exactly when
    [strptime] accepts the text of the date under "%Y-%m-%d".  Whatever is
    accepted names a day of the calendar, in a year from 1 to 9999, and is
    written as a year of four decimal digits, a hyphen, a month of one or
    two characters, a hyphen, a day of one or two characters, and nothing
    after the day.  Every text that is strictly YYYY-MM-DD and names a day
    of the calendar is accepted, "2024-01-15" among them; "15-01-2024" and
    "2024/01/15" are refused; a refused date is reported with its text, and
    the four other checks are made all the same. *)
Theorem C4_date_format receipt_exists data skip_duplicate amount tax :
  all_present data -> coerced data amount tax ->
  exists rep c,
    validate_receipt receipt_exists data skip_duplicate = Ret rep
    /\ map fst (checks rep) = check_names
    /\ getitem (checks rep) "date_format" = Some c
    /\ (pass c = true
        <-> exists ymd, strptime_ymd (py_str (get data "date")) = Ret ymd)
    /\ (forall y m d,
          strptime_ymd (py_str (get data "date")) = Ret (y, m, d) ->
          date_shaped (py_str (get data "date"))
          /\ 1 <= y <= 9999 /\ 1 <= m <= 12 /\ 1 <= d <= days_in_month y m)
    /\ (strict_ymd (py_str (get data "date")) = true -> pass c = true)
    /\ (py_str (get data "date") = "2024-01-15" -> pass c = true)
    /\ (py_str (get data "date") = "15-01-2024"
        \/ py_str (get data "date") = "2024/01/15" -> pass c = false)
    /\ (pass c = false ->
        info c = details ("Invalid date format: " ++ py_str (get data "date"))).
Proof.
  intros Hall Hco.
  exists (full_report receipt_exists data skip_duplicate amount tax),
    (check_date_format (get data "date")).
  split; [by apply validate_receipt_full|].
  split; [reflexivity|]. split; [reflexivity|].
  split; [apply check_date_format_pass|].
  split; [intros y m d; apply strptime_ymd_accepts|].
  split; [intros H; apply check_date_format_pass; by apply strict_ymd_accepted|].
  unfold check_date_format.
  split; [intros ->; reflexivity|].
  split; [intros [-> | ->]; reflexivity|].
  destruct (strptime_ymd _); simpl; [discriminate|done].
Qed.

Lemma C4_witness :
  exists rep c,
    validate_receipt never (receipt (VStr "2024-01-15") (VInt 1000) (VInt 80)) false
    = Ret rep
    /\ map fst (checks rep) = check_names
    /\ getitem (checks rep) "date_format" = Some c
    /\ (pass c = true
        <-> exists ymd,
            strptime_ymd
              (py_str (get (receipt (VStr "2024-01-15") (VInt 1000) (VInt 80)) "date"))
            = Ret ymd)
    /\ (forall y m d,
          strptime_ymd
            (py_str (get (receipt (VStr "2024-01-15") (VInt 1000) (VInt 80)) "date"))
          = Ret (y, m, d) ->
          date_shaped
            (py_str (get (receipt (VStr "2024-01-15") (VInt 1000) (VInt 80)) "date"))
          /\ 1 <= y <= 9999 /\ 1 <= m <= 12 /\ 1 <= d <= days_in_month y m)
    /\ (strict_ymd
          (py_str (get (receipt (VStr "2024-01-15") (VInt 1000) (VInt 80)) "date"))
        = true -> pass c = true)
    /\ (py_str (get (receipt (VStr "2024-01-15") (VInt 1000) (VInt 80)) "date")
        = "2024-01-15" -> pass c = true)
    /\ (py_str (get (receipt (VStr "2024-01-15") (VInt 1000) (VInt 80)) "date")
        = "15-01-2024"
        \/ py_str (get (receipt (VStr "2024-01-15") (VInt 1000) (VInt 80)) "date")
           = "2024/01/15" -> pass c = false)
    /\ (pass c = false ->
        info c
        = details
            ("Invalid date format: "
             ++ py_str (get (receipt (VStr "2024-01-15") (VInt 1000) (VInt 80)) "date"))).
Proof.
  apply (C4_date_format never
           (receipt (VStr "2024-01-15") (VInt 1000) (VInt 80)) false
           (float_of_Z 1000) (float_of_Z 80)).
  - sample_present.
  - sample_coerced.
Defined.

(** C4 as stated fails: "2024-1-5", with a month and a day of one digit, is
    not strictly YYYY-MM-DD, and the [date_format] check passes for it. *)
Lemma C4_counterexample :
  exists rep c,
    validate_receipt never (receipt (VStr "2024-1-5") (VInt 1000) (VInt 80)) false
    = Ret rep
    /\ getitem (checks rep) "date_format" = Some c
    /\ pass c = true
    /\ strict_ymd (py_str (get (receipt (VStr "2024-1-5") (VInt 1000) (VInt 80)) "date"))
       = false.
Proof.
  eexists _, _. split; [vm_compute; reflexivity|].
  split; [reflexivity|]. split; reflexivity.
Qed.

(** The dates of the specification, and some that [strptime] takes or
    refuses. *)
Example dates_accepted :
  strptime_ymd "2024-01-15" = Ret (2024, 1, 15)
  /\ strptime_ymd "2024-1-5" = Ret (2024, 1, 5)
  /\ strptime_ymd "2024-02-29" = Ret (2024, 2, 29)
  /\ strptime_ymd "２０２４-01-1５" = Ret (2024, 1, 15).
Proof. vm_compute. done. Qed.

Example dates_refused :
  strptime_ymd "15-01-2024" = Raise ValueError
  /\ strptime_ymd "2024/01/15" = Raise ValueError
  /\ strptime_ymd "2023-02-29" = Raise ValueError
  /\ strptime_ymd "2024-01-15 10:30" = Raise ValueError
  /\ strptime_ymd "0000-01-01" = Raise ValueError
  /\ strptime_ymd "2024-０1-15" = Raise ValueError.
Proof. vm_compute. done. Qed.

(** * More on the validator *)

Lemma filter_agree {A : Type} (P Q : A -> Prop)
    `{!forall x, Decision (P x)} `{!forall x, Decision (Q x)} (l : list A) :
  Forall (fun x => P x <-> Q x) l -> filter P l = filter Q l.
Proof.
  induction 1 as [|x l Hx _ IH]; [reflexivity|].
  rewrite !filter_cons, IH.
  destruct (decide (P x)), (decide (Q x)); tauto.
Qed.

(** The validator reads the record through the five required fields only,
    and the vendor only for being there. *)
Lemma validate_receipt_reads receipt_exists data1 data2 skip_duplicate :
  is_None (get data1 "vendor") = is_None (get data2 "vendor") ->
  get data1 "bill_id" = get data2 "bill_id" ->
  get data1 "date" = get data2 "date" ->
  get data1 "amount" = get data2 "amount" ->
  get data1 "tax" = get data2 "tax" ->
  validate_receipt receipt_exists data1 skip_duplicate
  = validate_receipt receipt_exists data2 skip_duplicate.
Proof.
  intros Hv Hb Hd Ha Ht. unfold validate_receipt.
  rewrite (filter_agree (fun f => is_None (get data1 f) = true)
             (fun f => is_None (get data2 f) = true) required).
  - rewrite Hb, Hd, Ha, Ht. reflexivity.
  - unfold required. repeat apply Forall_cons_2; try apply Forall_nil_2;
      cbv beta; rewrite ?Hv, ?Hb, ?Hd, ?Ha, ?Ht; reflexivity.
Qed.

(** X1.  A key that is not one of the five required fields ([subtotal],
    [category], [items], ...) has no effect on the outcome: setting it to
    any value leaves the result of the validator as it was. *)
Theorem X1_other_keys_are_ignored receipt_exists data skip_duplicate k v :
  k ∉ required ->
  validate_receipt receipt_exists (<[k := v]> data) skip_duplicate
  = validate_receipt receipt_exists data skip_duplicate.
Proof.
  intros Hk.
  assert (Hget : forall f, f ∈ required -> get (<[k := v]> data) f = get data f).
  { intros f Hf. unfold get. rewrite lookup_insert_ne; [done|].
    intros ->. done. }
  apply validate_receipt_reads; try rewrite Hget; try done;
    unfold required; compute_done.
Qed.

Lemma X1_witness :
  validate_receipt never
    (<["category" := VStr "Food"]>
       (receipt (VStr "2024-01-15") (VInt 1000) (VInt 80))) false
  = validate_receipt never (receipt (VStr "2024-01-15") (VInt 1000) (VInt 80)) false.
Proof.
  apply (X1_other_keys_are_ignored never
           (receipt (VStr "2024-01-15") (VInt 1000) (VInt 80)) false
           "category" (VStr "Food")).
  unfold required. compute_done.
Defined.

(** X2.  The vendor is looked at only for being there: replacing a vendor
    by any other value that is not [None] leaves the result as it was. *)
Theorem X2_vendor_value_is_not_read receipt_exists data skip_duplicate v :
  get data "vendor" <> VNone -> v <> VNone ->
  validate_receipt receipt_exists (<["vendor" := v]> data) skip_duplicate
  = validate_receipt receipt_exists data skip_duplicate.
Proof.
  intros Hold Hnew.
  apply validate_receipt_reads.
  - unfold get at 1. rewrite lookup_insert_eq. simpl.
    destruct v; [done|..]; destruct (get data "vendor"); done.
  - unfold get. by rewrite lookup_insert_ne.
  - unfold get. by rewrite lookup_insert_ne.
  - unfold get. by rewrite lookup_insert_ne.
  - unfold get. by rewrite lookup_insert_ne.
Qed.

Lemma X2_witness :
  validate_receipt never
    (<["vendor" := VInt 7]>
       (receipt (VStr "2024-01-15") (VInt 1000) (VInt 80))) false
  = validate_receipt never (receipt (VStr "2024-01-15") (VInt 1000) (VInt 80)) false.
Proof.
  apply (X2_vendor_value_is_not_read never
           (receipt (VStr "2024-01-15") (VInt 1000) (VInt 80)) false (VInt 7)).
  - vm_compute. discriminate.
  - discriminate.
Defined.

Lemma getitem_full_report_other lookup1 lookup2 data skip1 skip2 amount tax name :
  name <> "is_duplicate" ->
  getitem (checks (full_report lookup1 data skip1 amount tax)) name
  = getitem (checks (full_report lookup2 data skip2 amount tax)) name.
Proof.
  intros Hne. unfold full_report; cbn [checks getitem].
  repeat (destruct (String.eqb _ name) eqn:?; [reflexivity|]).
  destruct (String.eqb_spec "is_duplicate" name) as [<-|]; [done|reflexivity].
Qed.

(** X3.  Skipping the duplicate check can only help: when the validator
    returns a report with the check made, it returns one with the check
    skipped too; the two agree on every check but [is_duplicate], and the
    second has passed whenever the first has. *)
Theorem X3_skipping_is_lenient receipt_exists data rep :
  validate_receipt receipt_exists data false = Ret rep ->
  exists rep',
    validate_receipt receipt_exists data true = Ret rep'
    /\ (forall name, name <> "is_duplicate" ->
        getitem (checks rep') name = getitem (checks rep) name)
    /\ (passed rep = true -> passed rep' = true).
Proof.
  intros H.
  apply validate_receipt_Ret in H
    as [(f & fields & E & ->)|(Hall & amount & tax & Hco & ->)].
  - exists (short_report (f :: fields)). split; [|done].
    unfold validate_receipt. rewrite E. reflexivity.
  - exists (full_report receipt_exists data true amount tax).
    split; [by apply validate_receipt_full|]. split.
    + intros name Hne. by apply getitem_full_report_other.
    + unfold full_report; cbn [passed]. rewrite !andb_true_iff.
      intros [H _]. split; [done|]. reflexivity.
Qed.

Lemma X3_witness :
  exists rep',
    validate_receipt always (receipt (VStr "2024-01-15") (VInt 1000) (VInt 80)) true
    = Ret rep'
    /\ (forall name, name <> "is_duplicate" ->
        getitem (checks rep') name
        = getitem (checks (full_report always
                             (receipt (VStr "2024-01-15") (VInt 1000) (VInt 80))
                             false (float_of_Z 1000) (float_of_Z 80))) name)
    /\ (passed (full_report always
                  (receipt (VStr "2024-01-15") (VInt 1000) (VInt 80))
                  false (float_of_Z 1000) (float_of_Z 80)) = true ->
        passed rep' = true).
Proof.
  apply (X3_skipping_is_lenient always
           (receipt (VStr "2024-01-15") (VInt 1000) (VInt 80))).
  vm_compute. reflexivity.
Defined.

Lemma overflows_raises v : overflows v -> float_or_zero v = Raise OverflowError.
Proof. intros (z & s & -> & E). unfold float_or_zero; simpl. by rewrite E. Qed.

(** When the validator raises: on a date that [str] refuses, with
    [ValueError] from the handler of the date stage, and otherwise on an
    amount or a tax beyond the range of the floats, with
    [OverflowError]. *)
Lemma validate_receipt_raises receipt_exists data skip_duplicate e :
  validate_receipt receipt_exists data skip_duplicate = Raise e
  <-> all_present data
      /\ ((too_long (get data "date") /\ e = ValueError)
          \/ (~ too_long (get data "date")
              /\ e = OverflowError
              /\ (overflows (get data "amount") \/ overflows (get data "tax")))).
Proof.
  split.
  - intros H.
    destruct (filter (fun f => is_None (get data f) = true) required)
      as [|f fields] eqn:E.
    + pose proof (filter_missing_nil_inv _ E) as Hall. split; [done|].
      destruct (builtin_str_cases (get data "date")) as [[Hl Hd]|[Hn Hd]].
      { left. split; [done|].
        unfold validate_receipt in H. rewrite E, Hd in H.
        by injection H as <-. }
      right. split; [done|].
      destruct (float_or_zero (get data "amount")) as [amount|e1] eqn:Ha.
      * destruct (float_or_zero (get data "tax")) as [tax|e2] eqn:Ht.
        { rewrite (validate_receipt_full _ _ _ amount tax) in H
            by (unfold coerced; eauto).
          discriminate H. }
        apply float_or_zero_raises in Ht as Hr.
        destruct Hr as (-> & z & s & Hz & Hs).
        unfold validate_receipt in H. rewrite E, Hd, Ha, Ht in H.
        unfold mbind, res_bind in H; cbv beta iota in H.
        destruct (strptime_ymd _); injection H as <-;
          (split; [done|]; right; by exists z, s).
      * apply float_or_zero_raises in Ha as Hr.
        destruct Hr as (-> & z & s & Hz & Hs).
        unfold validate_receipt in H. rewrite E, Hd, Ha in H.
        unfold mbind, res_bind in H; cbv beta iota in H.
        destruct (strptime_ymd _); injection H as <-;
          (split; [done|]; left; by exists z, s).
    + unfold validate_receipt in H. rewrite E in H. discriminate H.
  - intros (Hall & [[Hl ->]|(Hn & -> & Hov)]); unfold validate_receipt;
      rewrite (filter_missing_nil _ Hall).
    + destruct (builtin_str_cases (get data "date")) as [[_ Hd]|[Hn _]];
        [|destruct (Hn Hl)].
      by rewrite Hd.
    + destruct (builtin_str_cases (get data "date")) as [[Hl _]|[_ Hd]];
        [destruct (Hn Hl)|].
      rewrite Hd. unfold mbind, res_bind; cbv beta iota.
      destruct Hov as [Hov|Hov]; apply overflows_raises in Hov.
      * rewrite Hov. by destruct (strptime_ymd _).
      * destruct (float_or_zero (get data "amount")) as [amount|e1] eqn:Ha.
        -- rewrite Hov. by destruct (strptime_ymd _).
        -- apply float_or_zero_raises in Ha as [-> _].
           by destruct (strptime_ymd _).
Qed.

(** A date that is an integer of 4301 digits: the validator raises from
    the handler of the date stage. *)
Example date_too_long_raises :
  validate_receipt never
    (receipt (VInt (10 ^ 4300)) (VInt 1000) (VInt 80)) false
  = Raise ValueError.
Proof. vm_compute. reflexivity. Qed.

(** X4.  The validator raises on two kinds of record only, both with every
    required field there: a date that is an integer of more digits than
    [str] gives, which the handler of the date stage meets again when it
    writes its message, with [ValueError]; and, the date apart, an amount or
    a tax that is an integer too large for a float, with
    [OverflowError]. *)
Theorem X4_raises_only_on_huge_integers receipt_exists data skip_duplicate e :
  validate_receipt receipt_exists data skip_duplicate = Raise e
  <-> all_present data
      /\ ((too_long (get data "date") /\ e = ValueError)
          \/ (~ too_long (get data "date")
              /\ e = OverflowError
              /\ (overflows (get data "amount") \/ overflows (get data "tax")))).
Proof. apply validate_receipt_raises. Qed.

(** X17.  When a receipt passes.  With every required field present and both
    numbers converted, the report has passed exactly when the date is
    accepted, the amount is greater than zero, the tax is zero or one of the
    two candidate subtotals qualifies, and the duplicate check is skipped or
    finds nothing. *)
Theorem X17_when_a_receipt_passes receipt_exists data skip_duplicate amount tax :
  all_present data -> coerced data amount tax ->
  exists rep,
    validate_receipt receipt_exists data skip_duplicate = Ret rep
    /\ (passed rep = true
        <-> (exists ymd, strptime_ymd (py_str (get data "date")) = Ret ymd)
            /\ fgt amount fzero = true
            /\ (feq tax fzero = true
                \/ qualifies tax (fsub amount tax) = true
                \/ qualifies tax amount = true)
            /\ (skip_duplicate = true
                \/ receipt_exists (get data "bill_id") = false)).
Proof.
  intros Hall Hco.
  exists (full_report receipt_exists data skip_duplicate amount tax).
  split; [by apply validate_receipt_full|].
  unfold full_report; cbn [passed]. rewrite !andb_true_iff.
  rewrite check_date_format_pass.
  assert (H3 : pass (check_total_amount amount) = true <-> fgt amount fzero = true).
  { unfold check_total_amount. by destruct (fgt amount fzero). }
  assert (H4 : pass (check_tax_rate amount tax) = true
               <-> feq tax fzero = true
                   \/ qualifies tax (fsub amount tax) = true
                   \/ qualifies tax amount = true).
  { destruct (feq tax fzero) eqn:E.
    - unfold check_tax_rate. rewrite E. simpl. tauto.
    - rewrite (check_tax_rate_cases _ _ E).
      destruct (qualifies tax (fsub amount tax)); [simpl; tauto|].
      destruct (qualifies tax amount); simpl; [tauto|].
      split; [discriminate|]. intros [?|[?|?]]; discriminate. }
  assert (H5 : pass (check_is_duplicate (receipt_exists (get data "bill_id"))
                       skip_duplicate) = true
               <-> skip_duplicate = true
                   \/ receipt_exists (get data "bill_id") = false).
  { destruct skip_duplicate, (receipt_exists _); simpl; split; auto;
      intros [?|?]; discriminate. }
  rewrite H3, H4, H5. tauto.
Qed.

Lemma X17_witness :
  exists rep,
    validate_receipt never (receipt (VStr "2024-01-15") (VInt 1000) (VInt 80)) false
    = Ret rep
    /\ (passed rep = true
        <-> (exists ymd,
                strptime_ymd
                  (py_str (get (receipt (VStr "2024-01-15") (VInt 1000) (VInt 80))
                             "date")) = Ret ymd)
            /\ fgt (float_of_Z 1000) fzero = true
            /\ (feq (float_of_Z 80) fzero = true
                \/ qualifies (float_of_Z 80)
                     (fsub (float_of_Z 1000) (float_of_Z 80)) = true
                \/ qualifies (float_of_Z 80) (float_of_Z 1000) = true)
            /\ (false = true
                \/ never (get (receipt (VStr "2024-01-15") (VInt 1000) (VInt 80))
                            "bill_id") = false)).
Proof.
  apply (X17_when_a_receipt_passes never
           (receipt (VStr "2024-01-15") (VInt 1000) (VInt 80)) false
           (float_of_Z 1000) (float_of_Z 80)).
  - sample_present.
  - sample_coerced.
Defined.

(** * The search of a stored receipt *)

Lemma append_cons c s t : String.append (String c s) t = String c (String.append s t).
Proof. reflexivity. Qed.

Lemma append_assoc s t u :
  String.append (String.append s t) u = String.append s (String.append t u).
Proof.
  induction s as [|c s IH]; [reflexivity|].
  rewrite !append_cons. by rewrite IH.
Qed.

Lemma prefix_spec n h :
  String.prefix n h = true <-> exists post, h = String.append n post.
Proof.
  revert h. induction n as [|c n IH]; intros h.
  - split; [intros _; exists h; reflexivity|intros _; destruct h; reflexivity].
  - destruct h as [|c' h]; simpl.
    + split; [discriminate|]. intros [post H]. discriminate H.
    + destruct (Ascii.ascii_dec c c') as [->|Hne].
      * rewrite IH. split; intros [post H]; exists post.
        -- rewrite append_cons. by rewrite H.
        -- rewrite append_cons in H. congruence.
      * split; [discriminate|]. intros [post H].
        rewrite append_cons in H. congruence.
Qed.

(** [contains] is the test of a text occurring inside another. *)
Lemma contains_spec n h :
  contains n h = true
  <-> exists pre post, h = String.append pre (String.append n post).
Proof.
  induction h as [|c h IH]; cbn [contains]; rewrite orb_true_iff, prefix_spec.
  - split.
    + intros [[post H]|H]; [|discriminate]. by exists EmptyString, post.
    + intros (pre & post & H). left.
      destruct pre; [by exists post|]. rewrite append_cons in H. discriminate H.
  - rewrite IH. split.
    + intros [[post H]|(pre & post & H)].
      * by exists EmptyString, post.
      * exists (String c pre), post. rewrite append_cons. by rewrite H.
    + intros (pre & post & H). destruct pre as [|c' pre].
      * left. by exists post.
      * right. exists pre, post. rewrite append_cons in H. congruence.
Qed.

Lemma nonempty_false s : nonempty s = false <-> s = EmptyString.
Proof. destruct s; simpl; split; congruence. Qed.

(** A numeric filter never raises. *)
Lemma number_filter_total box v : exists b, number_filter box v = Ret b.
Proof.
  unfold number_filter. destruct (nonempty box); [|eauto].
  destruct (float_of_str box) as [x|e] eqn:E; [eauto|].
  apply float_of_str_raises in E as ->. eauto.
Qed.

(** A numeric filter lets a receipt through when the box is empty, when it
    does not hold a number, or when the number it holds equals the value. *)
Lemma number_filter_true box v :
  number_filter box v = Ret true
  <-> box = EmptyString
      \/ float_of_str box = Raise ValueError
      \/ exists x, float_of_str box = Ret x /\ feq x v = true.
Proof.
  unfold number_filter. destruct box as [|c box]; simpl nonempty.
  - split; [by left|done].
  - destruct (float_of_str (String c box)) as [x|e] eqn:E.
    + split.
      * intros [= H]. right; right. eauto.
      * intros [H|[H|(x' & [= <-] & H)]]; [discriminate..|]. by rewrite H.
    + apply float_of_str_raises in E as ->. split; [|done].
      intros _. right; by left.
Qed.

Section StoredSearchFacts.

Variable str_lower : string -> string.

(** What it takes for a stored receipt to be the match: its bill id and
    vendor have a text, its amount and tax convert, and each filter that is
    filled in holds. *)
Lemma stored_receipt_matches_true q r :
  stored_receipt_matches str_lower q r = Ret true
  <-> exists r_amount r_tax,
      ~ too_long (get_default r "bill_id" (VStr ""))
      /\ ~ too_long (get_default r "vendor" (VStr ""))
      /\ py_float (get_default r "amount" (VFloat fzero)) = Ret r_amount
      /\ py_float (get_default r "tax" (VFloat fzero)) = Ret r_tax
      /\ (in_bill_id q = EmptyString
          \/ contains (in_bill_id q)
               (py_str (get_default r "bill_id" (VStr ""))) = true)
      /\ (in_vendor q = EmptyString
          \/ contains (str_lower (in_vendor q))
               (str_lower (py_str (get_default r "vendor" (VStr "")))) = true)
      /\ number_filter (in_amount q) r_amount = Ret true
      /\ number_filter (in_tax q) r_tax = Ret true.
Proof.
  unfold stored_receipt_matches.
  destruct (builtin_str_cases (get_default r "bill_id" (VStr "")))
    as [[Hlb ->]|[Hnb ->]]; cbn [mbind res_bind];
    [split; [discriminate|intros (? & ? & Hn & _); destruct (Hn Hlb)]|].
  destruct (builtin_str_cases (get_default r "vendor" (VStr "")))
    as [[Hlv ->]|[Hnv ->]]; cbn [mbind res_bind];
    [split; [discriminate|intros (? & ? & _ & Hn & _); destruct (Hn Hlv)]|].
  destruct (py_float (get_default r "amount" _)) as [a|e]; cbn [mbind res_bind];
    [|split; [discriminate|intros (? & ? & _ & _ & [=] & _)]].
  destruct (py_float (get_default r "tax" _)) as [t|e]; cbn [mbind res_bind];
    [|split; [discriminate|intros (? & ? & _ & _ & _ & [=] & _)]].
  assert (Hb : nonempty (in_bill_id q)
                && negb (contains (in_bill_id q)
                           (py_str (get_default r "bill_id" (VStr "")))) = false
               <-> in_bill_id q = EmptyString
                   \/ contains (in_bill_id q)
                        (py_str (get_default r "bill_id" (VStr ""))) = true).
  { rewrite andb_false_iff, negb_false_iff, nonempty_false. tauto. }
  assert (Hv : nonempty (in_vendor q)
                && negb (contains (str_lower (in_vendor q))
                           (str_lower (py_str (get_default r "vendor" (VStr "")))))
               = false
               <-> in_vendor q = EmptyString
                   \/ contains (str_lower (in_vendor q))
                        (str_lower (py_str (get_default r "vendor" (VStr ""))))
                      = true).
  { rewrite andb_false_iff, negb_false_iff, nonempty_false. tauto. }
  destruct (number_filter_total (in_amount q) a) as [ka Ea].
  destruct (number_filter_total (in_tax q) t) as [kt Et].
  rewrite Ea, Et; cbn [mbind res_bind].
  split.
  - intros H. exists a, t.
    destruct (nonempty (in_bill_id q) && _); [discriminate H|].
    destruct (nonempty (in_vendor q) && _); [discriminate H|].
    destruct ka; [|discriminate H]. destruct kt; [|discriminate H].
    destruct Hb as [Hb _]. destruct Hv as [Hv _]. auto 10.
  - intros (a' & t' & _ & _ & [= <-] & [= <-] & G1 & G2 & Ha & Ht).
    apply Hb in G1. apply Hv in G2. rewrite G1, G2.
    rewrite Ea in Ha. rewrite Et in Ht.
    injection Ha as ->. injection Ht as ->. reflexivity.
Qed.

(** A turn of the loop raises only when one of the four values of the
    receipt does not convert, the first that does not in the order bill id,
    vendor, amount, tax: the filters are not looked at before, and do not
    raise. *)
Lemma stored_receipt_matches_raises q r e :
  stored_receipt_matches str_lower q r = Raise e
  <-> (too_long (get_default r "bill_id" (VStr "")) /\ e = ValueError)
      \/ (~ too_long (get_default r "bill_id" (VStr ""))
          /\ ((too_long (get_default r "vendor" (VStr "")) /\ e = ValueError)
              \/ (~ too_long (get_default r "vendor" (VStr ""))
                  /\ (py_float (get_default r "amount" (VFloat fzero)) = Raise e
                      \/ ((exists a,
                              py_float (get_default r "amount" (VFloat fzero))
                              = Ret a)
                          /\ py_float (get_default r "tax" (VFloat fzero))
                             = Raise e))))).
Proof.
  unfold stored_receipt_matches.
  destruct (builtin_str_cases (get_default r "bill_id" (VStr "")))
    as [[Hlb ->]|[Hnb ->]]; cbn [mbind res_bind].
  { split; [intros [= <-]; by left|]. intros [[_ ->]|[Hn _]]; [done|].
    destruct (Hn Hlb). }
  destruct (builtin_str_cases (get_default r "vendor" (VStr "")))
    as [[Hlv ->]|[Hnv ->]]; cbn [mbind res_bind].
  { split; [intros [= <-]; right; split; [done|]; by left|].
    intros [[Hl _]|[_ [[_ ->]|[Hn _]]]]; [destruct (Hnb Hl)|done|].
    destruct (Hn Hlv). }
  destruct (py_float (get_default r "amount" _)) as [a|e1]; cbn [mbind res_bind].
  - destruct (py_float (get_default r "tax" _)) as [t|e2]; cbn [mbind res_bind].
    + destruct (number_filter_total (in_amount q) a) as [ka Ea].
      destruct (number_filter_total (in_tax q) t) as [kt Et].
      rewrite Ea, Et; cbn [mbind res_bind].
      split.
      * repeat match goal with
               | |- context [if ?b then _ else _] => destruct b
               end; discriminate.
      * intros [[Hl _]|[_ [[Hl _]|[_ [H|[_ H]]]]]];
          [destruct (Hnb Hl)|destruct (Hnv Hl)|discriminate H..].
    + split; [intros [= <-]; right; split; [done|]; right; split; [done|];
              right; eauto|].
      intros [[Hl _]|[_ [[Hl _]|[_ [[=]|[_ [= <-]]]]]]];
        [destruct (Hnb Hl)|destruct (Hnv Hl)|done].
  - split; [intros [= <-]; right; split; [done|]; right; split; [done|];
            by left|].
    intros [[Hl _]|[_ [[Hl _]|[_ [[= <-]|[[a [=]] _]]]]]];
      [destruct (Hnb Hl)|destruct (Hnv Hl)|done].
Qed.

(** When the search returns a receipt. *)
Lemma find_stored_match_Some q receipts r :
  find_stored_match str_lower q receipts = Ret (Some r)
  <-> exists before after,
      receipts = (before ++ r :: after)%list
      /\ Forall (fun r' => stored_receipt_matches str_lower q r' = Ret false) before
      /\ stored_receipt_matches str_lower q r = Ret true.
Proof.
  induction receipts as [|r0 rest IH]; cbn [find_stored_match].
  - split; [discriminate|]. intros (before & after & H & _).
    by destruct before.
  - destruct (stored_receipt_matches str_lower q r0) as [[]|e] eqn:E;
      cbn [mbind res_bind].
    + split.
      * intros [= <-]. exists [], rest. done.
      * intros (before & after & H & Hb & Hr). destruct before as [|r1 before].
        -- injection H as <- _. done.
        -- injection H as <- _. apply Forall_cons in Hb as [Hb _]. congruence.
    + rewrite IH. split.
      * intros (before & after & -> & Hb & Hr).
        exists (r0 :: before), after. split; [done|]. split; [|done].
        by apply Forall_cons.
      * intros (before & after & H & Hb & Hr). destruct before as [|r1 before].
        -- injection H as <- _. congruence.
        -- injection H as <- ->. apply Forall_cons in Hb as [_ Hb]. eauto.
    + split; [discriminate|].
      intros (before & after & H & Hb & Hr). destruct before as [|r1 before].
      * injection H as <- _. congruence.
      * injection H as <- _. apply Forall_cons in Hb as [Hb _]. congruence.
Qed.

(** X5.  The search returns the first stored receipt that matches: the
    receipts before it were all looked at and passed over. *)
Theorem X5_search_returns_first_match q receipts r :
  find_stored_match str_lower q receipts = Ret (Some r)
  <-> exists before after,
      receipts = (before ++ r :: after)%list
      /\ Forall (fun r' => stored_receipt_matches str_lower q r' = Ret false) before
      /\ stored_receipt_matches str_lower q r = Ret true.
Proof. apply find_stored_match_Some. Qed.

(** X6.  The search ends with no match exactly when every stored receipt
    was looked at and passed over. *)
Theorem X6_search_finds_nothing q receipts :
  find_stored_match str_lower q receipts = Ret None
  <-> Forall (fun r => stored_receipt_matches str_lower q r = Ret false) receipts.
Proof.
  induction receipts as [|r0 rest IH]; cbn [find_stored_match].
  - split; [intros _; apply Forall_nil_2|done].
  - rewrite Forall_cons.
    destruct (stored_receipt_matches str_lower q r0) as [[]|e];
      cbn [mbind res_bind].
    + split; [discriminate|]. intros [[=] _].
    + rewrite IH. tauto.
    + split; [discriminate|]. intros [[=] _].
Qed.

Lemma find_stored_match_raises q receipts e :
  find_stored_match str_lower q receipts = Raise e
  <-> exists before r after,
      receipts = (before ++ r :: after)%list
      /\ Forall (fun r' => stored_receipt_matches str_lower q r' = Ret false) before
      /\ stored_receipt_matches str_lower q r = Raise e.
Proof.
  induction receipts as [|r0 rest IH]; cbn [find_stored_match].
  - split; [discriminate|]. intros (before & r & after & H & _).
    by destruct before.
  - destruct (stored_receipt_matches str_lower q r0) as [[]|e0] eqn:E;
      cbn [mbind res_bind].
    + split; [discriminate|].
      intros (before & r & after & H & Hb & Hr). destruct before as [|r1 before].
      * injection H as <- _. congruence.
      * injection H as <- _. apply Forall_cons in Hb as [Hb _]. congruence.
    + rewrite IH. split.
      * intros (before & r & after & -> & Hb & Hr).
        exists (r0 :: before), r, after. split; [done|]. split; [|done].
        by apply Forall_cons.
      * intros (before & r & after & H & Hb & Hr). destruct before as [|r1 before].
        -- injection H as <- _. congruence.
        -- injection H as <- ->. apply Forall_cons in Hb as [_ Hb]. eauto 6.
    + split.
      * intros [= <-]. exists [], r0, rest. done.
      * intros (before & r & after & H & Hb & Hr). destruct before as [|r1 before].
        -- injection H as <- _. congruence.
        -- injection H as <- _. apply Forall_cons in Hb as [Hb _]. congruence.
Qed.

(** X7.  The search is ended by an exception exactly when, before any
    match, it reaches a stored receipt of which one of the four values read
    at the top of the loop does not convert: a bill id or a vendor that is
    an integer of more digits than [str] gives, with [ValueError], or an
    amount or a tax that [float] refuses, with the exception of [float].
    The values are taken in the order bill id, vendor, amount, tax, the
    exception is that of the first that fails, and no filter can prevent
    it. *)
Theorem X7_search_raises q receipts e :
  find_stored_match str_lower q receipts = Raise e
  <-> exists before r after,
      receipts = (before ++ r :: after)%list
      /\ Forall (fun r' => stored_receipt_matches str_lower q r' = Ret false) before
      /\ ((too_long (get_default r "bill_id" (VStr "")) /\ e = ValueError)
          \/ (~ too_long (get_default r "bill_id" (VStr ""))
              /\ ((too_long (get_default r "vendor" (VStr "")) /\ e = ValueError)
                  \/ (~ too_long (get_default r "vendor" (VStr ""))
                      /\ (py_float (get_default r "amount" (VFloat fzero))
                          = Raise e
                          \/ ((exists a,
                                  py_float (get_default r "amount" (VFloat fzero))
                                  = Ret a)
                              /\ py_float (get_default r "tax" (VFloat fzero))
                                 = Raise e)))))).
Proof.
  rewrite find_stored_match_raises.
  split; intros (before & r & after & H & Hb & Hr); exists before, r, after;
    (split; [done|]; split; [done|]);
    by apply (stored_receipt_matches_raises q r e).
Qed.

(** X8.  What a match means for the person who filled in the boxes: the
    receipt found is one of the stored receipts; the text of the bill-id box
    occurs in its bill id; the text of the vendor box occurs in its vendor,
    both taken in lower case; and a number typed in the amount or the tax
    box equals its amount or its tax. *)
Theorem X8_match_satisfies_filters q receipts r :
  find_stored_match str_lower q receipts = Ret (Some r) ->
  r ∈ receipts
  /\ (in_bill_id q <> EmptyString ->
      exists pre post,
        py_str (get_default r "bill_id" (VStr ""))
        = String.append pre (String.append (in_bill_id q) post))
  /\ (in_vendor q <> EmptyString ->
      exists pre post,
        str_lower (py_str (get_default r "vendor" (VStr "")))
        = String.append pre (String.append (str_lower (in_vendor q)) post))
  /\ (forall x, float_of_str (in_amount q) = Ret x ->
      exists a,
        py_float (get_default r "amount" (VFloat fzero)) = Ret a
        /\ feq x a = true)
  /\ (forall x, float_of_str (in_tax q) = Ret x ->
      exists t,
        py_float (get_default r "tax" (VFloat fzero)) = Ret t
        /\ feq x t = true).
Proof.
  intros H. apply find_stored_match_Some in H
    as (before & after & -> & _ & H).
  apply stored_receipt_matches_true in H
    as (a & t & _ & _ & Ha & Ht & Hb & Hv & Hfa & Hft).
  split; [apply elem_of_app; right; apply list_elem_of_here|].
  split; [intros Hne; destruct Hb as [Hb|Hb]; [done|by apply contains_spec]|].
  split; [intros Hne; destruct Hv as [Hv|Hv]; [done|by apply contains_spec]|].
  split.
  - intros x Hx. exists a. split; [done|].
    apply number_filter_true in Hfa as [E|[E|(x' & E & Hfa)]].
    + rewrite E in Hx. discriminate Hx.
    + congruence.
    + congruence.
  - intros x Hx. exists t. split; [done|].
    apply number_filter_true in Hft as [E|[E|(x' & E & Hft)]].
    + rewrite E in Hx. discriminate Hx.
    + congruence.
    + congruence.
Qed.

Lemma number_filter_box_ignored box box' v :
  box' = box \/ (box' = EmptyString /\ exists e, float_of_str box = Raise e) ->
  number_filter box v = number_filter box' v.
Proof.
  intros [->|[-> [e E]]]; [reflexivity|].
  unfold number_filter. cbn [nonempty]. rewrite E.
  apply float_of_str_raises in E as ->. by destruct (nonempty box).
Qed.

(** X9.  A text that is not a number, typed in the amount or in the tax
    box, is ignored: the search gives what it gives with that box left
    empty. *)
Theorem X9_non_numeric_box_is_ignored b v a t a' t' run receipts :
  a' = a \/ (a' = EmptyString /\ exists e, float_of_str a = Raise e) ->
  t' = t \/ (t' = EmptyString /\ exists e, float_of_str t = Raise e) ->
  find_stored_match str_lower
    {| in_bill_id := b; in_vendor := v; in_amount := a; in_tax := t;
       in_run := run |} receipts
  = find_stored_match str_lower
      {| in_bill_id := b; in_vendor := v; in_amount := a'; in_tax := t';
         in_run := run |} receipts.
Proof.
  intros Ha Ht.
  induction receipts as [|r rest IH]; [reflexivity|].
  cbn [find_stored_match]. rewrite IH. f_equal.
  unfold stored_receipt_matches; cbn [in_bill_id in_vendor in_amount in_tax].
  destruct (builtin_str (get_default r "bill_id" _)) as [tb|]; [|reflexivity].
  destruct (builtin_str (get_default r "vendor" _)) as [tv|]; [|reflexivity].
  destruct (py_float (get_default r "amount" _)) as [x|]; [|reflexivity].
  destruct (py_float (get_default r "tax" _)) as [y|]; [|reflexivity].
  cbn [mbind res_bind].
  by rewrite (number_filter_box_ignored a a' x Ha),
    (number_filter_box_ignored t t' y Ht).
Qed.

Lemma number_filter_nan box v :
  float_of_str box = Ret S754_nan -> number_filter box v <> Ret true.
Proof.
  intros E H. apply number_filter_true in H as [->|[H|(x & H & Hx)]].
  - vm_compute in E. discriminate E.
  - congruence.
  - rewrite E in H. injection H as <-. discriminate Hx.
Qed.

(** X10.  With "nan" (or any text [float] reads as a NaN) in the amount or
    in the tax box, no stored receipt is ever the match: a NaN differs from
    every number. *)
Theorem X10_nan_matches_nothing q receipts r :
  float_of_str (in_amount q) = Ret S754_nan
  \/ float_of_str (in_tax q) = Ret S754_nan ->
  find_stored_match str_lower q receipts <> Ret (Some r).
Proof.
  intros Hnan H. apply find_stored_match_Some in H
    as (before & after & _ & _ & H).
  apply stored_receipt_matches_true in H
    as (a & t & _ & _ & _ & _ & _ & _ & Hfa & Hft).
  destruct Hnan as [E|E].
  - by apply (number_filter_nan _ a E).
  - by apply (number_filter_nan _ t E).
Qed.

Lemma float_or_zero_of_default r k x :
  py_float (get_default r k (VFloat fzero)) = Ret x ->
  exists y, float_or_zero (get r k) = Ret y.
Proof.
  unfold get_default, get, float_or_zero.
  destruct (r !! k) as [v|]; simpl; [|eauto].
  intros H. destruct (is_None v); [eauto|]. rewrite H. eauto.
Qed.

(** On a matched receipt the validator does not fail on the amount or on
    the tax, which the search has converted already: it returns a report,
    unless every required field is there and the date is an integer that
    [str] refuses. *)
Lemma matched_receipt_validates receipt_exists q receipts r :
  find_stored_match str_lower q receipts = Ret (Some r) ->
  (all_present r /\ too_long (get r "date")
   /\ validate_receipt receipt_exists r true = Raise ValueError)
  \/ (~ (all_present r /\ too_long (get r "date"))
      /\ exists rep, validate_receipt receipt_exists r true = Ret rep).
Proof.
  intros H. apply find_stored_match_Some in H
    as (before & after & _ & _ & H).
  apply stored_receipt_matches_true in H as (a & t & _ & _ & Ha & Ht & _).
  apply float_or_zero_of_default in Ha as [a' Ha].
  apply float_or_zero_of_default in Ht as [t' Ht].
  destruct (validate_receipt receipt_exists r true) as [rep|e] eqn:V.
  - right. split; [|eauto]. intros [Hall Hl].
    assert (V' : validate_receipt receipt_exists r true = Raise ValueError)
      by (apply validate_receipt_raises; split; [done|]; by left).
    congruence.
  - left. apply validate_receipt_raises in V
      as (Hall & [[Hl ->]|(_ & _ & [Ho|Ho])]); [done|..];
      apply overflows_raises in Ho; congruence.
Qed.

(** The bill id of a matched receipt has a text, the one the heading of
    the page shows. *)
Lemma matched_bill_id_shown q receipts r :
  find_stored_match str_lower q receipts = Ret (Some r) ->
  builtin_str (get_default r "bill_id" (VStr "Unknown"))
  = Ret (py_str (get_default r "bill_id" (VStr "Unknown"))).
Proof.
  intros H. apply find_stored_match_Some in H
    as (before & after & _ & _ & H).
  apply stored_receipt_matches_true in H as (a & t & Hn & _).
  unfold get_default in *. destruct (r !! "bill_id") as [v|]; [|reflexivity].
  cbn [default] in *.
  by destruct (builtin_str_cases v) as [[Hl _]|[_ E]].
Qed.

(** X11.  The receipt the search hands over never makes the validator fail
    on its amount or its tax, which the search has converted already: the
    page gets a report for it, with one exception, a receipt that has every
    required field and a date that is an integer of more digits than [str]
    gives, on which the validator raises [ValueError]. *)
Theorem X11_match_is_validated receipt_exists q receipts r :
  find_stored_match str_lower q receipts = Ret (Some r) ->
  (all_present r /\ too_long (get r "date")
   /\ validate_receipt receipt_exists r true = Raise ValueError)
  \/ (~ (all_present r /\ too_long (get r "date"))
      /\ exists rep, validate_receipt receipt_exists r true = Ret rep).
Proof. apply matched_receipt_validates. Qed.

(** X16.  With the four boxes left empty, the first stored receipt is the
    match as soon as its four values convert: the bill id and the vendor
    have a text, and [float] takes the amount and the tax. *)
Theorem X16_empty_boxes_take_first_receipt run r rest :
  find_stored_match str_lower
    {| in_bill_id := ""; in_vendor := ""; in_amount := ""; in_tax := "";
       in_run := run |} (r :: rest) = Ret (Some r)
  <-> ~ too_long (get_default r "bill_id" (VStr ""))
      /\ ~ too_long (get_default r "vendor" (VStr ""))
      /\ (exists a, py_float (get_default r "amount" (VFloat fzero)) = Ret a)
      /\ (exists t, py_float (get_default r "tax" (VFloat fzero)) = Ret t).
Proof.
  cbn [find_stored_match]. unfold stored_receipt_matches.
  cbn [in_bill_id in_vendor in_amount in_tax nonempty andb number_filter].
  destruct (builtin_str_cases (get_default r "bill_id" (VStr "")))
    as [[Hlb ->]|[Hnb ->]]; cbn [mbind res_bind];
    [split; [discriminate|intros (Hn & _); destruct (Hn Hlb)]|].
  destruct (builtin_str_cases (get_default r "vendor" (VStr "")))
    as [[Hlv ->]|[Hnv ->]]; cbn [mbind res_bind];
    [split; [discriminate|intros (_ & Hn & _); destruct (Hn Hlv)]|].
  destruct (py_float (get_default r "amount" _)) as [a|e1]; cbn [mbind res_bind].
  - destruct (py_float (get_default r "tax" _)) as [t|e2]; cbn [mbind res_bind negb].
    + split; eauto 6.
    + split; [discriminate|]. intros (_ & _ & _ & [t [=]]).
  - split; [discriminate|]. intros (_ & _ & [a [=]] & _).
Qed.

End StoredSearchFacts.

(** * The validation page *)

Lemma show_report_fails rep passed_text failed_text :
  show_report rep passed_text failed_text = ([], inr (KeyError "results")).
Proof. reflexivity. Qed.

Lemma session_truth_report data report :
  session_truth data report = true -> exists rep, report = Some rep.
Proof. destruct data, report; simpl; try discriminate; eauto. Qed.

(** X12.  Once a receipt has been uploaded in the session (the two session
    entries are set, the receipt not empty), the page stops right after the
    heading of the uploaded receipt with [KeyError] for "results", the key
    the report does not have: neither its checks nor the search of stored
    receipts are shown, whatever the boxes hold. *)
Theorem X12_page_stops_after_an_upload str_lower receipt_exists receipts data
    report q :
  session_truth data report = true ->
  validation_ui str_lower receipt_exists receipts data report q
  = ([st_header "🧾 Receipt Validation";
      st_subheader "🎯 Current Uploaded Receipt"],
     inr (KeyError "results")).
Proof.
  intros H. destruct (session_truth_report _ _ H) as [rep ->].
  unfold validation_ui. rewrite H. reflexivity.
Qed.

Lemma X12_witness :
  validation_ui lower never [stored_acme] (Some stored_acme)
    (Some (full_report never stored_acme false (float_of_Z 1000) (float_of_Z 80)))
    (ask "" "" "" "")
  = ([st_header "🧾 Receipt Validation";
      st_subheader "🎯 Current Uploaded Receipt"],
     inr (KeyError "results")).
Proof.
  apply (X12_page_stops_after_an_upload lower never [stored_acme]
           (Some stored_acme)
           (Some (full_report never stored_acme false
                    (float_of_Z 1000) (float_of_Z 80)))
           (ask "" "" "" "")).
  vm_compute. reflexivity.
Defined.

(** Without an upload the page goes on to the search. *)
Lemma validation_ui_no_upload str_lower receipt_exists receipts data report q :
  session_truth data report = false ->
  validation_ui str_lower receipt_exists receipts data report q
  = if in_run q then
      match find_stored_match str_lower q receipts with
      | Raise e => (page_frame, inr (Builtin e))
      | Ret None =>
          ((page_frame ++ [st_error "No matching stored receipt found"])%list,
           inl tt)
      | Ret (Some r) =>
          match validate_receipt receipt_exists r true with
          | Raise e => (page_frame, inr (Builtin e))
          | Ret _ =>
              match builtin_str (get_default r "bill_id" (VStr "Unknown")) with
              | Raise e => (page_frame, inr (Builtin e))
              | Ret shown =>
                  ((page_frame
                    ++ [st_subheader ("🧪 Validation for " ++ shown)])%list,
                   inr (KeyError "results"))
              end
          end
      end
    else (page_frame, inl tt).
Proof.
  intros H. unfold validation_ui.
  assert (Hinfo :
    match report with
    | Some rep =>
        if session_truth data report
        then
          _ ← show (st_subheader "🎯 Current Uploaded Receipt");
          show_report rep "🎉 Receipt passed validation"
            "❌ Receipt failed validation"
        else show (st_info "No receipt uploaded yet")
    | None => show (st_info "No receipt uploaded yet")
    end = show (st_info "No receipt uploaded yet")).
  { destruct report; [by rewrite H|reflexivity]. }
  rewrite Hinfo. destruct (in_run q); [|reflexivity].
  destruct (find_stored_match str_lower q receipts) as [[r|]|e];
    [|reflexivity..].
  cbn [mbind ui_bind of_res mret ui_ret show page_raise].
  destruct (validate_receipt receipt_exists r true) as [rep|e]; [|reflexivity].
  destruct (builtin_str (get_default r "bill_id" _)) as [shown|e]; reflexivity.
Qed.

Ltac not_in_shown H :=
  unfold page_frame in H; cbn [app] in H;
  repeat (apply elem_of_cons in H as [H|H]; [discriminate H|]);
  by apply elem_of_nil in H.

(** X13.  The page never shows a verdict: whatever the session, the boxes
    and the stored receipts, no success message is among what it shows, and
    the only error message it can show is that no stored receipt matches. *)
Theorem X13_page_never_shows_a_verdict str_lower receipt_exists receipts data
    report q :
  (forall text,
      st_success text
      ∉ (validation_ui str_lower receipt_exists receipts data report q).1)
  /\ (forall text,
        st_error text
        ∈ (validation_ui str_lower receipt_exists receipts data report q).1 ->
        text = "No matching stored receipt found").
Proof.
  destruct (session_truth data report) eqn:S.
  - destruct (session_truth_report _ _ S) as [rep ->].
    unfold validation_ui. rewrite S.
    split; [intros text H|intros text H]; cbn in H; not_in_shown H.
  - rewrite (validation_ui_no_upload _ _ _ _ _ _ S).
    destruct (in_run q);
      [destruct (find_stored_match str_lower q receipts) as [[r|]|e];
       [destruct (validate_receipt receipt_exists r true) as [rep|e];
        [destruct (builtin_str (get_default r "bill_id" _)) as [shown|e]|]|..]|];
      (split; [intros text H; cbn [fst] in H; not_in_shown H|]);
      intros text H; cbn [fst] in H; unfold page_frame in H; cbn [app] in H;
      repeat (apply elem_of_cons in H as [H|H];
              [first [discriminate H | by injection H as ->]|]);
      by apply elem_of_nil in H.
Qed.

(** X14.  The page runs to its end exactly when no receipt was uploaded in
    the session and the search is not run or finds nothing; in every other
    case an exception ends it. *)
Theorem X14_page_completes str_lower receipt_exists receipts data report q :
  (validation_ui str_lower receipt_exists receipts data report q).2 = inl tt
  <-> session_truth data report = false
      /\ (in_run q = false
          \/ find_stored_match str_lower q receipts = Ret None).
Proof.
  destruct (session_truth data report) eqn:S.
  - destruct (session_truth_report _ _ S) as [rep ->].
    unfold validation_ui. rewrite S. cbn. split; [discriminate|].
    intros [[=] _].
  - rewrite (validation_ui_no_upload _ _ _ _ _ _ S).
    destruct (in_run q); [|cbn; split; auto].
    destruct (find_stored_match str_lower q receipts) as [[r|]|e].
    + destruct (validate_receipt receipt_exists r true);
        [destruct (builtin_str (get_default r "bill_id" _))|]; cbn;
        (split; [discriminate|]); intros [_ [[=]|[=]]].
    + cbn. split; auto.
    + cbn. split; [discriminate|]. intros [_ [[=]|[=]]].
Qed.

(** X15.  When the search finds a stored receipt (and nothing was uploaded in
    the session), the receipt is validated.  If it has every required field
    and a date that is an integer of more digits than [str] gives, the page
    stops there with the [ValueError] of the validator.  Otherwise the
    heading with its bill id is shown, and the page then stops with
    [KeyError] for "results": the checks of the stored receipt are never
    displayed. *)
Theorem X15_page_stops_after_a_match str_lower receipt_exists receipts data
    report q r :
  session_truth data report = false -> in_run q = true ->
  find_stored_match str_lower q receipts = Ret (Some r) ->
  (all_present r /\ too_long (get r "date")
   /\ validation_ui str_lower receipt_exists receipts data report q
      = (page_frame, inr (Builtin ValueError)))
  \/ (~ (all_present r /\ too_long (get r "date"))
      /\ validation_ui str_lower receipt_exists receipts data report q
         = ((page_frame
             ++ [st_subheader
                   ("🧪 Validation for "
                    ++ py_str (get_default r "bill_id" (VStr "Unknown")))])%list,
            inr (KeyError "results"))).
Proof.
  intros S Hrun Hfind.
  rewrite (validation_ui_no_upload _ _ _ _ _ _ S), Hrun, Hfind.
  rewrite (matched_bill_id_shown str_lower _ _ _ Hfind).
  destruct (matched_receipt_validates str_lower receipt_exists _ _ _ Hfind)
    as [(Hall & Hl & ->)|(Hn & rep & ->)]; [left|right]; done.
Qed.

(** The witnesses of the search: two stored receipts, and a search for a
    vendor that has "ac" in its name and an amount of 1000. *)

Lemma X8_witness :
  stored_acme ∈ stored_receipts
  /\ (in_bill_id (ask "" "ac" "1e3" "") <> EmptyString ->
      exists pre post,
        py_str (get_default stored_acme "bill_id" (VStr ""))
        = String.append pre
            (String.append (in_bill_id (ask "" "ac" "1e3" "")) post))
  /\ (in_vendor (ask "" "ac" "1e3" "") <> EmptyString ->
      exists pre post,
        lower (py_str (get_default stored_acme "vendor" (VStr "")))
        = String.append pre
            (String.append (lower (in_vendor (ask "" "ac" "1e3" ""))) post))
  /\ (forall x, float_of_str (in_amount (ask "" "ac" "1e3" "")) = Ret x ->
      exists a,
        py_float (get_default stored_acme "amount" (VFloat fzero)) = Ret a
        /\ feq x a = true)
  /\ (forall x, float_of_str (in_tax (ask "" "ac" "1e3" "")) = Ret x ->
      exists t,
        py_float (get_default stored_acme "tax" (VFloat fzero)) = Ret t
        /\ feq x t = true).
Proof.
  apply (X8_match_satisfies_filters lower (ask "" "ac" "1e3" "")
           stored_receipts stored_acme).
  vm_compute. reflexivity.
Defined.

Lemma X9_witness :
  find_stored_match lower
    {| in_bill_id := ""; in_vendor := "ac"; in_amount := "abc"; in_tax := "";
       in_run := true |} stored_receipts
  = find_stored_match lower
      {| in_bill_id := ""; in_vendor := "ac"; in_amount := ""; in_tax := "";
         in_run := true |} stored_receipts.
Proof.
  apply (X9_non_numeric_box_is_ignored lower "" "ac" "abc" "" "" "" true
           stored_receipts).
  - right. split; [reflexivity|]. exists ValueError. vm_compute. reflexivity.
  - left. reflexivity.
Defined.

Lemma X10_witness :
  (float_of_str (in_amount (ask "" "" "nan" "")) = Ret S754_nan
   \/ float_of_str (in_tax (ask "" "" "nan" "")) = Ret S754_nan)
  /\ find_stored_match lower (ask "" "" "nan" "") stored_receipts
     <> Ret (Some stored_bolt).
Proof.
  assert (H : float_of_str (in_amount (ask "" "" "nan" "")) = Ret S754_nan
              \/ float_of_str (in_tax (ask "" "" "nan" "")) = Ret S754_nan)
    by (left; vm_compute; reflexivity).
  split; [exact H|].
  exact (X10_nan_matches_nothing lower (ask "" "" "nan" "") stored_receipts
           stored_bolt H).
Defined.

Lemma X11_witness :
  (all_present stored_acme /\ too_long (get stored_acme "date")
   /\ validate_receipt never stored_acme true = Raise ValueError)
  \/ (~ (all_present stored_acme /\ too_long (get stored_acme "date"))
      /\ exists rep, validate_receipt never stored_acme true = Ret rep).
Proof.
  apply (X11_match_is_validated lower never (ask "" "ac" "1e3" "")
           stored_receipts stored_acme).
  vm_compute. reflexivity.
Defined.

Lemma X15_witness :
  (all_present stored_acme /\ too_long (get stored_acme "date")
   /\ validation_ui lower never stored_receipts None None (ask "" "ac" "1e3" "")
      = (page_frame, inr (Builtin ValueError)))
  \/ (~ (all_present stored_acme /\ too_long (get stored_acme "date"))
      /\ validation_ui lower never stored_receipts None None
           (ask "" "ac" "1e3" "")
         = ((page_frame
             ++ [st_subheader
                   ("🧪 Validation for "
                    ++ py_str (get_default stored_acme "bill_id"
                                 (VStr "Unknown")))])%list,
            inr (KeyError "results"))).
Proof.
  apply (X15_page_stops_after_a_match lower never stored_receipts None None
           (ask "" "ac" "1e3" "") stored_acme).
  - reflexivity.
  - reflexivity.
  - vm_compute. reflexivity.
Defined.

(** The search on the two stored receipts. *)
Example search_by_vendor :
  find_stored_match lower (ask "" "AC" "" "") stored_receipts
  = Ret (Some stored_acme).
Proof. vm_compute. reflexivity. Qed.

Example search_with_null_amount :
  find_stored_match lower (ask "INV-001" "" "" "")
    [stored_no_amount; stored_acme]
  = Raise TypeError.
Proof. vm_compute. reflexivity. Qed.

(** A stored bill id that is an integer of 4301 digits ends the search,
    with every box empty. *)
Example search_with_long_bill_id :
  find_stored_match lower (ask "" "" "" "")
    [<["bill_id" := VInt (10 ^ 4300)]> stored_acme; stored_acme]
  = Raise ValueError.
Proof. vm_compute. reflexivity. Qed.

(** A stored date that is such an integer is no obstacle to the search, and
    ends the page in the validator. *)
Example page_with_long_date :
  validation_ui lower never [<["date" := VInt (10 ^ 4300)]> stored_acme]
    None None (ask "" "" "" "")
  = (page_frame, inr (Builtin ValueError)).
Proof. vm_compute. reflexivity. Qed.
